(** * The bulk-import workflow of the admin console

    A shallow embedding of [src/components/sections/ImportManager.tsx]:
    the spreadsheet parser ([parseFile], [parseCSVLine]), the record
    normaliser ([convertToFormat]), the duplicate detector
    ([checkForDuplicates]) and the importer ([handleImport],
    [importToStoreProducts], [importToWebsiteManagement]), together with
    the component state they read and write.

    Conventions of the embedding.
    - A JavaScript string is a [string]; its characters stand for code
      units below 256, which is where the built-ins modelled in [JS]
      ([toLowerCase], [trim]) are defined here.
    - [undefined] is [None]; the logical-or chains of the source over
      possibly missing strings are [JS.or_else].
    - An object used as a dictionary with insertion order is a [JS.obj];
      the [Map] built by the duplicate detector is a [gmap].
    - Exceptions are the [Throw] case of [Result]. *)

From stdpp Require Import gmap strings list fin_maps pretty.
From Stdlib Require Import ZArith Ascii.

Local Open Scope Z_scope.
Local Open Scope nat_scope.

(** ** Outcomes of code that may throw *)

Inductive Result (A : Type) : Type :=
  | Ok (value : A)
  | Throw (message : string).
Arguments Ok {A} value.
Arguments Throw {A} message.

(** ** The JavaScript built-ins the component relies on *)

Module JS.

(** The double-quote character, code 34. *)
Definition dquote : ascii := ascii_of_nat 34.
Definition comma : ascii := ascii_of_nat 44.
Definition slash : ascii := ascii_of_nat 47.
Definition newline : ascii := ascii_of_nat 10.
Definition underscore : ascii := ascii_of_nat 95.

(** ToBoolean on a string: only the empty string is falsy. *)
Definition truthy (s : string) : bool :=
  match s with
  | EmptyString => false
  | String _ _ => true
  end.

(** [a || b] where [a] may be undefined and [b] is a string. *)
Definition or_else (a : option string) (b : string) : string :=
  match a with
  | Some s => if truthy s then s else b
  | None => b
  end.

(** White space and line terminators below code 256, as [trim] sees
    them: TAB, LF, VT, FF, CR, SP and NBSP. *)
Definition isWhiteSpace (c : ascii) : bool :=
  bool_decide (nat_of_ascii c ∈ [9; 10; 11; 12; 13; 32; 160]).

Fixpoint trimStart (s : string) : string :=
  match s with
  | EmptyString => EmptyString
  | String c rest => if isWhiteSpace c then trimStart rest else s
  end.

Fixpoint trimEnd (s : string) : string :=
  match s with
  | EmptyString => EmptyString
  | String c rest =>
      match trimEnd rest with
      | EmptyString => if isWhiteSpace c then EmptyString else String c EmptyString
      | t => String c t
      end
  end.

Definition trim (s : string) : string := trimEnd (trimStart s).

(** [toLowerCase] on code units below 256: A-Z and the upper-case
    letters of Latin-1 (192-222 except the multiplication sign 215) move
    up by 32, everything else is unchanged. *)
Definition toLowerChar (c : ascii) : ascii :=
  let n := nat_of_ascii c in
  if bool_decide (65 ≤ n ≤ 90 ∨ (192 ≤ n ≤ 222 ∧ n ≠ 215))
  then ascii_of_nat (n + 32) else c.

Fixpoint toLowerCase (s : string) : string :=
  match s with
  | EmptyString => EmptyString
  | String c rest => String (toLowerChar c) (toLowerCase rest)
  end.

(** [s.replace(/\/$/, '')]: without the multiline flag the anchor is the
    end of the input, so at most one final slash goes. *)
Fixpoint stripTrailingSlash (s : string) : string :=
  match s with
  | EmptyString => EmptyString
  | String c EmptyString => if decide (c = slash) then EmptyString else s
  | String c rest => String c (stripTrailingSlash rest)
  end.

(** The global replace of the double-quote pattern by the empty
    string: every double quote goes. *)
Fixpoint removeQuotes (s : string) : string :=
  match s with
  | EmptyString => EmptyString
  | String c rest =>
      if decide (c = dquote) then removeQuotes rest
      else String c (removeQuotes rest)
  end.

(** [s.split(sep)] for a one-character separator; the empty string
    splits into one empty piece. *)
Fixpoint split (sep : ascii) (s : string) : list string :=
  match s with
  | EmptyString => [EmptyString]
  | String c rest =>
      if decide (c = sep) then EmptyString :: split sep rest
      else match split sep rest with
           | piece :: pieces => String c piece :: pieces
           | [] => [String c EmptyString]
           end
  end.

(** Does the character occur in the string? *)
Fixpoint occurs (c : ascii) (s : string) : bool :=
  match s with
  | EmptyString => false
  | String d rest => bool_decide (d = c) || occurs c rest
  end.

(** *** Objects used as ordered dictionaries

    Own string-keyed properties in insertion order.  Assigning to an
    existing key keeps its place; a new key goes to the end. *)
Definition obj (V : Type) : Type := list (string * V).

Fixpoint get {V} (k : string) (o : obj V) : option V :=
  match o with
  | [] => None
  | (k', v) :: rest => if decide (k' = k) then Some v else get k rest
  end.

Fixpoint set {V} (k : string) (v : V) (o : obj V) : obj V :=
  match o with
  | [] => [(k, v)]
  | (k', v') :: rest =>
      if decide (k' = k) then (k, v) :: rest else (k', v') :: set k v rest
  end.

Definition values {V} (o : obj V) : list V := o.*2.
Definition keys {V} (o : obj V) : list string := o.*1.

(** *** parseInt, radix chosen by the prefix

    Leading white space is skipped, a sign is read, then either a
    hexadecimal literal after 0x or the longest run of decimal digits.
    [None] is NaN. *)
Definition digitValue (radix : nat) (c : ascii) : option nat :=
  let n := nat_of_ascii c in
  let v := if bool_decide (48 ≤ n ≤ 57) then Some (n - 48)
           else if bool_decide (97 ≤ n ≤ 122) then Some (n - 87)
           else if bool_decide (65 ≤ n ≤ 90) then Some (n - 55)
           else None in
  match v with
  | Some d => if bool_decide (d < radix) then Some d else None
  | None => None
  end.

Fixpoint digitsPrefix (radix : nat) (acc : option N) (s : string) : option N :=
  match s with
  | EmptyString => acc
  | String c rest =>
      match digitValue radix c with
      | Some d =>
          digitsPrefix radix
            (Some (N.of_nat radix * default 0%N acc + N.of_nat d)%N) rest
      | None => acc
      end
  end.

Definition parseUnsigned (s : string) : option N :=
  match s with
  | String z (String x rest) =>
      if bool_decide (nat_of_ascii z = 48 ∧ nat_of_ascii x ∈ [120; 88])
      then digitsPrefix 16 None rest
      else digitsPrefix 10 None s
  | _ => digitsPrefix 10 None s
  end.

Definition parseInt (s : string) : option Z :=
  match trimStart s with
  | String c rest =>
      if bool_decide (nat_of_ascii c = 45)
      then (λ n, (- Z.of_N n)%Z) <$> parseUnsigned rest
      else if bool_decide (nat_of_ascii c = 43)
      then Z.of_N <$> parseUnsigned rest
      else Z.of_N <$> parseUnsigned (String c rest)
  | EmptyString => None
  end.

(** [arr[i]] for a number [i]: undefined outside the indices. *)
Definition index {A} (arr : list A) (i : Z) : option A :=
  if bool_decide (0 ≤ i)%Z then arr !! Z.to_nat i else None.

End JS.

(** ** The spreadsheet parser *)

(** [parseCSVLine]: the loop over the characters, with its three
    variables [result], [current] and [inQuotes]. *)
Fixpoint parseCSVLine_loop (line : string) (result : list string)
    (current : string) (inQuotes : bool) : list string :=
  match line with
  | EmptyString => result ++ [current]
  | String char rest =>
      if bool_decide (char = JS.dquote) then
        parseCSVLine_loop rest result current (negb inQuotes)
      else if bool_decide (char = JS.comma) && negb inQuotes then
        parseCSVLine_loop rest (result ++ [current]) EmptyString inQuotes
      else
        parseCSVLine_loop rest result (current +:+ String char EmptyString) inQuotes
  end.

Definition parseCSVLine (line : string) : list string :=
  parseCSVLine_loop line [] EmptyString false.

Example parseCSVLine_quoted :
  parseCSVLine (String "a" (String JS.comma (String JS.dquote
                 (String "b" (String JS.comma (String "c" (String JS.dquote
                 (String JS.comma (String "d" EmptyString)))))))))
  = ["a"; String "b" (String JS.comma "c"); "d"].
Proof. reflexivity. Qed.

(** One parsed line of the file: column header to cell text
    ([ProductData], an object with an index signature). *)
Abbreviation ProductData := (gmap string string).

(** [row[header] = value].  The assignment creates an own property for
    every header except [__proto__], where the inherited setter ignores a
    string and the row is left as it was. *)
Definition assignCell (row : ProductData) (header value : string) : ProductData :=
  if decide (header = "__proto__") then row else <[header := value]> row.

(** The [headers.forEach] that fills one row: cell [index] with its quotes
    removed and trimmed, or the empty string. *)
Definition buildRow (headers values : list string) : ProductData :=
  foldl (λ row '(index, header),
           assignCell row header
             (JS.or_else ((λ v, JS.trim (JS.removeQuotes v)) <$> values !! index) ""))
        ∅ (imap pair headers).

Definition nonEmptyLines (text : string) : list string :=
  filter (λ line, JS.trim line ≠ "") (JS.split JS.newline text).

Definition parseHeaders (line : string) : list string :=
  (λ h, JS.trim (JS.removeQuotes h)) <$> JS.split JS.comma line.

Definition tooShort : string :=
  "File must contain at least a header row and one data row".

(** The first half of [parseFile]: from the text of the file to [data],
    or the exception thrown for a file that is too short. *)
Definition parseRows (text : string) : Result (list ProductData) :=
  let lines := nonEmptyLines text in
  if bool_decide (length lines < 2) then Throw tooShort
  else
    let headers := parseHeaders (default "" (head lines)) in
    Ok (foldl (λ data line,
                 let values := parseCSVLine line in
                 if bool_decide (length values = length headers)
                 then data ++ [buildRow headers values]
                 else data)
              [] (tail lines)).

(** ** The data model of the component *)

Inductive ImportDestination : Type :=
  | StoreProducts       (* 'store-products' *)
  | WebsiteManagement.  (* 'website-management' *)

Record DuplicateDetail : Type := {
  productName : string;
  clickUrl : string;
  foundInCategory : string
}.

Record DuplicateCheckResult : Type := {
  totalProducts : Z;
  duplicates : Z;
  newProducts : Z;
  duplicateDetails : list DuplicateDetail
}.

Record ParsedWebsiteItem : Type := {
  click : string;
  images : string;
  name : string;
  isDuplicate_w : option bool;
  duplicateSource_w : option string
}.

Record HomeCategory : Type := {
  home_image : string;
  home_items : option (JS.obj ParsedWebsiteItem);
  home_name : string
}.

Definition normalizeUrl (url : string) : string :=
  JS.stripTrailingSlash (JS.toLowerCase url).

Section Component.

(** The number type of the runtime and the three things the component
    does with it: the literal 0, ToBoolean, and [parseFloat]. *)
Context {number : Type}.
Variable zero : number.
Variable toBoolean : number → bool.
Variable parseFloat : string → number.

Record ParsedStoreProduct : Type := {
  image : string;
  links : string;
  no_of_ratings : string;
  pricing : string;
  ratings : number;
  title : string;
  isDuplicate : option bool;
  duplicateSource : option string
}.

Record ShopCategory : Type := {
  shop_image : string;
  shop_items : option (JS.obj ParsedStoreProduct);
  shop_title : string
}.

(** An element of [previewData]: one of the two shapes. *)
Inductive Candidate : Type :=
  | StoreCandidate (p : ParsedStoreProduct)
  | WebsiteCandidate (w : ParsedWebsiteItem).

(** ** The record normaliser *)

Definition convertToFormat (importDestination : ImportDestination)
    (item : ProductData) : Candidate :=
  match importDestination with
  | StoreProducts =>
      StoreCandidate {|
        image := JS.or_else (item !! "ImageUrl") (JS.or_else (item !! "Image") "");
        links := JS.or_else (item !! "ClickUrl")
                   (JS.or_else (item !! "Link") (JS.or_else (item !! "Url") ""));
        no_of_ratings :=
          JS.or_else (item !! "Ratings") (JS.or_else (item !! "Reviews") "");
        pricing := JS.or_else (item !! "Currency") "USD" +:+ " " +:+
                   JS.or_else (item !! "OriginalPrice")
                     (JS.or_else (item !! "Price") "0");
        ratings := (let r := parseFloat (JS.or_else (item !! "Rating") "0") in
                    if toBoolean r then r else zero);
        title := JS.or_else (item !! "Name")
                   (JS.or_else (item !! "Title")
                      (JS.or_else (item !! "ProductName") "Untitled Product"));
        isDuplicate := None;
        duplicateSource := None
      |}
  | WebsiteManagement =>
      WebsiteCandidate {|
        click := JS.or_else (item !! "ClickUrl")
                   (JS.or_else (item !! "Link") (JS.or_else (item !! "Url") ""));
        images := JS.or_else (item !! "ImageUrl") (JS.or_else (item !! "Image") "");
        name := JS.or_else (item !! "Name")
                  (JS.or_else (item !! "Title")
                     (JS.or_else (item !! "ProductName") "Untitled Item"));
        isDuplicate_w := None;
        duplicateSource_w := None
      |}
  end.

(** ** The duplicate detector *)

(** The two loops that fill [existingUrls]. *)
Definition existingUrls_store (existingStoreCategories : list ShopCategory)
    : gmap string string :=
  foldl (λ existingUrls category,
           match shop_items category with
           | Some items =>
               foldl (λ existingUrls item,
                        if JS.truthy (links item)
                        then <[normalizeUrl (links item) := shop_title category]>
                               existingUrls
                        else existingUrls)
                     existingUrls (JS.values items)
           | None => existingUrls
           end)
        ∅ existingStoreCategories.

Definition existingUrls_website
    (existingWebsiteCategories : JS.obj HomeCategory) : gmap string string :=
  foldl (λ existingUrls category,
           match home_items category with
           | Some items =>
               foldl (λ existingUrls item,
                        if JS.truthy (click item)
                        then <[normalizeUrl (click item) := home_name category]>
                               existingUrls
                        else existingUrls)
                     existingUrls (JS.values items)
           | None => existingUrls
           end)
        ∅ (JS.values existingWebsiteCategories).

(** The casts [(product as ParsedStoreProduct).links] and
    [(product as ParsedWebsiteItem).click]: on a candidate of the other
    shape the property is undefined. *)
Definition candidateUrl (importDestination : ImportDestination)
    (product : Candidate) : option string :=
  match importDestination, product with
  | StoreProducts, StoreCandidate p => Some (links p)
  | WebsiteManagement, WebsiteCandidate w => Some (click w)
  | _, _ => None
  end.

Definition candidateName (importDestination : ImportDestination)
    (product : Candidate) : option string :=
  match importDestination, product with
  | StoreProducts, StoreCandidate p => Some (title p)
  | WebsiteManagement, WebsiteCandidate w => Some (name w)
  | _, _ => None
  end.

(** [{ ...product, isDuplicate: true, duplicateSource: foundInCategory }] *)
Definition markDuplicate (product : Candidate) (found : string) : Candidate :=
  match product with
  | StoreCandidate p =>
      StoreCandidate {|
        image := image p; links := links p; no_of_ratings := no_of_ratings p;
        pricing := pricing p; ratings := ratings p; title := title p;
        isDuplicate := Some true; duplicateSource := Some found |}
  | WebsiteCandidate w =>
      WebsiteCandidate {|
        click := click w; images := images w; name := name w;
        isDuplicate_w := Some true; duplicateSource_w := Some found |}
  end.

(** [{ ...product, isDuplicate: false }]: the source label of an earlier
    run, if any, is carried along by the spread. *)
Definition markNew (product : Candidate) : Candidate :=
  match product with
  | StoreCandidate p =>
      StoreCandidate {|
        image := image p; links := links p; no_of_ratings := no_of_ratings p;
        pricing := pricing p; ratings := ratings p; title := title p;
        isDuplicate := Some false; duplicateSource := duplicateSource p |}
  | WebsiteCandidate w =>
      WebsiteCandidate {|
        click := click w; images := images w; name := name w;
        isDuplicate_w := Some false; duplicateSource_w := duplicateSource_w w |}
  end.

Definition undefinedToLowerCase : string :=
  "Cannot read properties of undefined (reading 'toLowerCase')".

(** [products.map(...)] with its pushes to [duplicateDetails], left to
    right.  Reading [toLowerCase] off an undefined url throws. *)
Fixpoint checkProducts (importDestination : ImportDestination)
    (existingUrls : gmap string string) (products : list Candidate)
    : Result (list Candidate * list DuplicateDetail) :=
  match products with
  | [] => Ok ([], [])
  | product :: rest =>
      match candidateUrl importDestination product with
      | None => Throw undefinedToLowerCase
      | Some url =>
          let normalizedUrl := normalizeUrl url in
          let found := default "" (existingUrls !! normalizedUrl) in
          match checkProducts importDestination existingUrls rest with
          | Throw e => Throw e
          | Ok (checkedProducts, details) =>
              if JS.truthy found then
                Ok (markDuplicate product found :: checkedProducts,
                    {| productName :=
                         default "" (candidateName importDestination product);
                       clickUrl := url;
                       foundInCategory := found |} :: details)
              else Ok (markNew product :: checkedProducts, details)
          end
      end
  end.

(** The body of [checkForDuplicates] between its two
    [setCheckingDuplicates] calls: the annotated list it hands to
    [setPreviewData] and the result it returns. *)
Definition detectDuplicates (importDestination : ImportDestination)
    (existingStoreCategories : list ShopCategory)
    (existingWebsiteCategories : JS.obj HomeCategory)
    (products : list Candidate)
    : Result (list Candidate * DuplicateCheckResult) :=
  let existingUrls :=
    match importDestination with
    | StoreProducts => existingUrls_store existingStoreCategories
    | WebsiteManagement => existingUrls_website existingWebsiteCategories
    end in
  match checkProducts importDestination existingUrls products with
  | Throw e => Throw e
  | Ok (checkedProducts, details) =>
      Ok (checkedProducts,
          {| totalProducts := Z.of_nat (length products);
             duplicates := Z.of_nat (length details);
             newProducts := (Z.of_nat (length products) - Z.of_nat (length details))%Z;
             duplicateDetails := details |})
  end.

(** ** The component, its objects and its collaborators

    The [useState] cells of the component.  The two category
    collections hold references: a category is an object on the heap,
    and both the state and the copies the importer takes of the
    collections point to the same objects. *)
Record State : Type := {
  file : option string;
  uploading : bool;
  checkingDuplicates : bool;
  parsedData : list ProductData;
  previewData : list Candidate;
  importDestination : ImportDestination;
  selectedCategory : string;
  newCategoryName : string;
  existingStoreCategories : list nat;
  existingWebsiteCategories : JS.obj nat;
  showPreview : bool;
  duplicateCheckResult : option DuplicateCheckResult;
  showDuplicatesOnly : bool;
  skipDuplicates : bool
}.

(** The setters, one per cell. *)
Definition setFile (v : option string) (s : State) : State :=
  {| file := v; uploading := uploading s; checkingDuplicates :=
     checkingDuplicates s; parsedData := parsedData s; previewData :=
     previewData s; importDestination := importDestination s;
     selectedCategory := selectedCategory s; newCategoryName :=
     newCategoryName s; existingStoreCategories := existingStoreCategories
     s; existingWebsiteCategories := existingWebsiteCategories s;
     showPreview := showPreview s; duplicateCheckResult :=
     duplicateCheckResult s; showDuplicatesOnly := showDuplicatesOnly s;
     skipDuplicates := skipDuplicates s |}.
Definition setUploading (v : bool) (s : State) : State :=
  {| file := file s; uploading := v; checkingDuplicates :=
     checkingDuplicates s; parsedData := parsedData s; previewData :=
     previewData s; importDestination := importDestination s;
     selectedCategory := selectedCategory s; newCategoryName :=
     newCategoryName s; existingStoreCategories := existingStoreCategories
     s; existingWebsiteCategories := existingWebsiteCategories s;
     showPreview := showPreview s; duplicateCheckResult :=
     duplicateCheckResult s; showDuplicatesOnly := showDuplicatesOnly s;
     skipDuplicates := skipDuplicates s |}.
Definition setCheckingDuplicates (v : bool) (s : State) : State :=
  {| file := file s; uploading := uploading s; checkingDuplicates := v;
     parsedData := parsedData s; previewData := previewData s;
     importDestination := importDestination s; selectedCategory :=
     selectedCategory s; newCategoryName := newCategoryName s;
     existingStoreCategories := existingStoreCategories s;
     existingWebsiteCategories := existingWebsiteCategories s; showPreview
     := showPreview s; duplicateCheckResult := duplicateCheckResult s;
     showDuplicatesOnly := showDuplicatesOnly s; skipDuplicates :=
     skipDuplicates s |}.
Definition setParsedData (v : list ProductData) (s : State) : State :=
  {| file := file s; uploading := uploading s; checkingDuplicates :=
     checkingDuplicates s; parsedData := v; previewData := previewData s;
     importDestination := importDestination s; selectedCategory :=
     selectedCategory s; newCategoryName := newCategoryName s;
     existingStoreCategories := existingStoreCategories s;
     existingWebsiteCategories := existingWebsiteCategories s; showPreview
     := showPreview s; duplicateCheckResult := duplicateCheckResult s;
     showDuplicatesOnly := showDuplicatesOnly s; skipDuplicates :=
     skipDuplicates s |}.
Definition setPreviewData (v : list Candidate) (s : State) : State :=
  {| file := file s; uploading := uploading s; checkingDuplicates :=
     checkingDuplicates s; parsedData := parsedData s; previewData := v;
     importDestination := importDestination s; selectedCategory :=
     selectedCategory s; newCategoryName := newCategoryName s;
     existingStoreCategories := existingStoreCategories s;
     existingWebsiteCategories := existingWebsiteCategories s; showPreview
     := showPreview s; duplicateCheckResult := duplicateCheckResult s;
     showDuplicatesOnly := showDuplicatesOnly s; skipDuplicates :=
     skipDuplicates s |}.
Definition setImportDestination (v : ImportDestination) (s : State) : State :=
  {| file := file s; uploading := uploading s; checkingDuplicates :=
     checkingDuplicates s; parsedData := parsedData s; previewData :=
     previewData s; importDestination := v; selectedCategory :=
     selectedCategory s; newCategoryName := newCategoryName s;
     existingStoreCategories := existingStoreCategories s;
     existingWebsiteCategories := existingWebsiteCategories s; showPreview
     := showPreview s; duplicateCheckResult := duplicateCheckResult s;
     showDuplicatesOnly := showDuplicatesOnly s; skipDuplicates :=
     skipDuplicates s |}.
Definition setSelectedCategory (v : string) (s : State) : State :=
  {| file := file s; uploading := uploading s; checkingDuplicates :=
     checkingDuplicates s; parsedData := parsedData s; previewData :=
     previewData s; importDestination := importDestination s;
     selectedCategory := v; newCategoryName := newCategoryName s;
     existingStoreCategories := existingStoreCategories s;
     existingWebsiteCategories := existingWebsiteCategories s; showPreview
     := showPreview s; duplicateCheckResult := duplicateCheckResult s;
     showDuplicatesOnly := showDuplicatesOnly s; skipDuplicates :=
     skipDuplicates s |}.
Definition setNewCategoryName (v : string) (s : State) : State :=
  {| file := file s; uploading := uploading s; checkingDuplicates :=
     checkingDuplicates s; parsedData := parsedData s; previewData :=
     previewData s; importDestination := importDestination s;
     selectedCategory := selectedCategory s; newCategoryName := v;
     existingStoreCategories := existingStoreCategories s;
     existingWebsiteCategories := existingWebsiteCategories s; showPreview
     := showPreview s; duplicateCheckResult := duplicateCheckResult s;
     showDuplicatesOnly := showDuplicatesOnly s; skipDuplicates :=
     skipDuplicates s |}.
Definition setExistingStoreCategories (v : list nat) (s : State) : State :=
  {| file := file s; uploading := uploading s; checkingDuplicates :=
     checkingDuplicates s; parsedData := parsedData s; previewData :=
     previewData s; importDestination := importDestination s;
     selectedCategory := selectedCategory s; newCategoryName :=
     newCategoryName s; existingStoreCategories := v;
     existingWebsiteCategories := existingWebsiteCategories s; showPreview
     := showPreview s; duplicateCheckResult := duplicateCheckResult s;
     showDuplicatesOnly := showDuplicatesOnly s; skipDuplicates :=
     skipDuplicates s |}.
Definition setExistingWebsiteCategories (v : JS.obj nat) (s : State) : State :=
  {| file := file s; uploading := uploading s; checkingDuplicates :=
     checkingDuplicates s; parsedData := parsedData s; previewData :=
     previewData s; importDestination := importDestination s;
     selectedCategory := selectedCategory s; newCategoryName :=
     newCategoryName s; existingStoreCategories := existingStoreCategories
     s; existingWebsiteCategories := v; showPreview := showPreview s;
     duplicateCheckResult := duplicateCheckResult s; showDuplicatesOnly :=
     showDuplicatesOnly s; skipDuplicates := skipDuplicates s |}.
Definition setShowPreview (v : bool) (s : State) : State :=
  {| file := file s; uploading := uploading s; checkingDuplicates :=
     checkingDuplicates s; parsedData := parsedData s; previewData :=
     previewData s; importDestination := importDestination s;
     selectedCategory := selectedCategory s; newCategoryName :=
     newCategoryName s; existingStoreCategories := existingStoreCategories
     s; existingWebsiteCategories := existingWebsiteCategories s;
     showPreview := v; duplicateCheckResult := duplicateCheckResult s;
     showDuplicatesOnly := showDuplicatesOnly s; skipDuplicates :=
     skipDuplicates s |}.
Definition setDuplicateCheckResult (v : option DuplicateCheckResult) (s : State) : State :=
  {| file := file s; uploading := uploading s; checkingDuplicates :=
     checkingDuplicates s; parsedData := parsedData s; previewData :=
     previewData s; importDestination := importDestination s;
     selectedCategory := selectedCategory s; newCategoryName :=
     newCategoryName s; existingStoreCategories := existingStoreCategories
     s; existingWebsiteCategories := existingWebsiteCategories s;
     showPreview := showPreview s; duplicateCheckResult := v;
     showDuplicatesOnly := showDuplicatesOnly s; skipDuplicates :=
     skipDuplicates s |}.
Definition setShowDuplicatesOnly (v : bool) (s : State) : State :=
  {| file := file s; uploading := uploading s; checkingDuplicates :=
     checkingDuplicates s; parsedData := parsedData s; previewData :=
     previewData s; importDestination := importDestination s;
     selectedCategory := selectedCategory s; newCategoryName :=
     newCategoryName s; existingStoreCategories := existingStoreCategories
     s; existingWebsiteCategories := existingWebsiteCategories s;
     showPreview := showPreview s; duplicateCheckResult :=
     duplicateCheckResult s; showDuplicatesOnly := v; skipDuplicates :=
     skipDuplicates s |}.
Definition setSkipDuplicates (v : bool) (s : State) : State :=
  {| file := file s; uploading := uploading s; checkingDuplicates :=
     checkingDuplicates s; parsedData := parsedData s; previewData :=
     previewData s; importDestination := importDestination s;
     selectedCategory := selectedCategory s; newCategoryName :=
     newCategoryName s; existingStoreCategories := existingStoreCategories
     s; existingWebsiteCategories := existingWebsiteCategories s;
     showPreview := showPreview s; duplicateCheckResult :=
     duplicateCheckResult s; showDuplicatesOnly := showDuplicatesOnly s;
     skipDuplicates := v |}.

(** What the user is shown. *)
Inductive Toast : Type :=
  | ToastSuccess (message : string)
  | ToastError (message : string)
  | ToastWarning (message : string).

(** The two paths of the document store the component reads and writes,
    each holding the value last given to [set] (or nothing yet). *)
Record Database : Type := {
  ShopCategories : option (list ShopCategory);
  HomeItems : option (JS.obj HomeCategory)
}.

(** What the surroundings decide during one handler: the clock read at
    each turn of the importer's loop, the key [push] hands out, and
    whether [set] or [get] reject (with which message). *)
Record Env : Type := {
  now : nat → N;
  pushKey : string;
  setRejects : option string;
  getRejects : option string
}.

(** The component with everything it can reach: its state, the category
    objects its collections refer to, the store and the toasts shown so
    far. *)
Record World : Type := {
  state : State;
  shopHeap : list ShopCategory;
  homeHeap : list HomeCategory;
  database : Database;
  toasts : list Toast
}.

Definition updState (f : State → State) (w : World) : World :=
  {| state := f (state w); shopHeap := shopHeap w; homeHeap := homeHeap w;
     database := database w; toasts := toasts w |}.

Definition withShopHeap (h : list ShopCategory) (w : World) : World :=
  {| state := state w; shopHeap := h; homeHeap := homeHeap w;
     database := database w; toasts := toasts w |}.

Definition withHomeHeap (h : list HomeCategory) (w : World) : World :=
  {| state := state w; shopHeap := shopHeap w; homeHeap := h;
     database := database w; toasts := toasts w |}.

Definition withDatabase (d : Database) (w : World) : World :=
  {| state := state w; shopHeap := shopHeap w; homeHeap := homeHeap w;
     database := d; toasts := toasts w |}.

Definition toast (t : Toast) (w : World) : World :=
  {| state := state w; shopHeap := shopHeap w; homeHeap := homeHeap w;
     database := database w; toasts := toasts w ++ [t] |}.

(** The categories the state refers to, read through the heap.  Every
    reference the component holds points to an object; a reference
    outside the heap does not arise and is skipped here. *)
Definition storeCategories (w : World) : list ShopCategory :=
  omap (λ r, shopHeap w !! r) (existingStoreCategories (state w)).

Definition websiteCategories (w : World) : JS.obj HomeCategory :=
  omap (λ '(id, r), pair id <$> homeHeap w !! r)
       (existingWebsiteCategories (state w)).

(** [checkForDuplicates]: the detector run on the categories in the
    state; [setPreviewData] and [setDuplicateCheckResult] on success, and
    [setCheckingDuplicates(false)] in either case. *)
Definition checkForDuplicates (w : World) (products : list Candidate)
    : World * Result DuplicateCheckResult :=
  match detectDuplicates (importDestination (state w)) (storeCategories w)
          (websiteCategories w) products with
  | Ok (checkedProducts, result) =>
      (updState (λ s, setCheckingDuplicates false
                        (setDuplicateCheckResult (Some result)
                           (setPreviewData checkedProducts s))) w,
       Ok result)
  | Throw e => (updState (setCheckingDuplicates false) w, Throw e)
  end.

(** [parseFile], given the text of the file. *)
Definition parseFile (w : World) (text : string) : World :=
  match parseRows text with
  | Throw e =>
      updState (setUploading false)
        (toast (ToastError ("Failed to parse file: " +:+ e)) w)
  | Ok data =>
      let preview := convertToFormat (importDestination (state w)) <$> data in
      match checkForDuplicates (updState (setParsedData data) w) preview with
      | (w1, Ok duplicateResult) =>
          let w2 :=
            toast (ToastSuccess
                     ("Successfully parsed " +:+ pretty (length data) +:+
                      " items. Found " +:+ pretty (duplicates duplicateResult) +:+
                      " duplicates."))
                  (updState (setShowPreview true) w1) in
          let w3 :=
            if bool_decide (0 < duplicates duplicateResult)%Z
            then toast (ToastWarning
                          (pretty (duplicates duplicateResult) +:+
                           " items already exist in the database and will be skipped by default."))
                       w2
            else w2 in
          updState (setUploading false) w3
      | (w1, Throw e) =>
          updState (setUploading false)
            (toast (ToastError ("Failed to parse file: " +:+ e)) w1)
      end
  end.

(** ** The importer *)

(** [`item_${Date.now()}_${index}`] *)
Definition itemKey (env : Env) (index : nat) : string :=
  "item_" +:+ pretty (now env index) +:+ "_" +:+ pretty index.

(** The rest pattern that leaves [isDuplicate] and [duplicateSource]
    behind. *)
Definition cleanProduct (product : ParsedStoreProduct) : ParsedStoreProduct :=
  {| image := image product; links := links product;
     no_of_ratings := no_of_ratings product; pricing := pricing product;
     ratings := ratings product; title := title product;
     isDuplicate := None; duplicateSource := None |}.

Definition cleanItem (item : ParsedWebsiteItem) : ParsedWebsiteItem :=
  {| click := click item; images := images item; name := name item;
     isDuplicate_w := None; duplicateSource_w := None |}.

(** The [forEach] of the importer: one assignment into [categoryItems]
    per product, under the key of its index. *)
Definition addItems {V} (clean : V → V) (env : Env) (products : list V)
    (categoryItems : JS.obj V) : JS.obj V :=
  foldl (λ items '(index, product), JS.set (itemKey env index) (clean product) items)
        categoryItems (imap pair products).

Definition invalidCategory : string := "Invalid category selection".

(** The items of a category are reached through the category object
    only, so storing the filled [categoryItems] in that object is the
    whole effect of the assignments of the loop and of the assignment to
    [items] that follows.  All of it happens before [set] is awaited. *)
Definition importToStoreProducts (w : World) (env : Env)
    (products : list ParsedStoreProduct) : World * Result unit :=
  let s := state w in
  let '(heap, updatedCategories, targetCategoryIndex) :=
    if JS.truthy (JS.trim (newCategoryName s)) then
      let newCategory := {| shop_image := ""; shop_items := Some [];
                            shop_title := JS.trim (newCategoryName s) |} in
      let pushed := existingStoreCategories s ++ [length (shopHeap w)] in
      (shopHeap w ++ [newCategory], pushed,
       Some (Z.of_nat (length pushed) - 1)%Z)
    else (shopHeap w, existingStoreCategories s, JS.parseInt (selectedCategory s)) in
  match targetCategoryIndex ≫= JS.index updatedCategories with
  | None => (w, Throw invalidCategory)
  | Some r =>
      match heap !! r with
      | None => (w, Throw invalidCategory)
      | Some category =>
          let categoryItems :=
            addItems cleanProduct env products (default [] (shop_items category)) in
          let heap' :=
            <[r := {| shop_image := shop_image category;
                      shop_items := Some categoryItems;
                      shop_title := shop_title category |}]> heap in
          match setRejects env with
          | Some e => (withShopHeap heap' w, Throw e)
          | None =>
              (withDatabase
                 {| ShopCategories := Some (omap (λ r, heap' !! r) updatedCategories);
                    HomeItems := HomeItems (database w) |}
                 (withShopHeap heap' w),
               Ok ())
          end
      end
  end.

Definition importToWebsiteManagement (w : World) (env : Env)
    (items : list ParsedWebsiteItem) : World * Result unit :=
  let s := state w in
  let '(heap, updatedCategories, targetCategoryId) :=
    if JS.truthy (JS.trim (newCategoryName s)) then
      let newCategory := {| home_image := ""; home_items := Some [];
                            home_name := JS.trim (newCategoryName s) |} in
      (homeHeap w ++ [newCategory],
       JS.set (pushKey env) (length (homeHeap w)) (existingWebsiteCategories s),
       pushKey env)
    else (homeHeap w, existingWebsiteCategories s, selectedCategory s) in
  match (if JS.truthy targetCategoryId
         then JS.get targetCategoryId updatedCategories else None) with
  | None => (w, Throw invalidCategory)
  | Some r =>
      match heap !! r with
      | None => (w, Throw invalidCategory)
      | Some category =>
          let categoryItems :=
            addItems cleanItem env items (default [] (home_items category)) in
          let heap' :=
            <[r := {| home_image := home_image category;
                      home_items := Some categoryItems;
                      home_name := home_name category |}]> heap in
          match setRejects env with
          | Some e => (withHomeHeap heap' w, Throw e)
          | None =>
              (withDatabase
                 {| ShopCategories := ShopCategories (database w);
                    HomeItems :=
                      Some (omap (λ '(id, r), pair id <$> heap' !! r)
                                 updatedCategories) |}
                 (withHomeHeap heap' w),
               Ok ())
          end
      end
  end.

Definition resetForm (s : State) : State :=
  setShowDuplicatesOnly false
    (setDuplicateCheckResult None
       (setNewCategoryName ""
          (setSelectedCategory ""
             (setShowPreview false
                (setPreviewData [] (setParsedData [] (setFile None s))))))).

(** [fetchExistingCategories]: the snapshot becomes fresh objects; a
    missing snapshot or a rejected [get] leaves the state as it is. *)
Definition fetchExistingCategories (w : World) (env : Env) : World :=
  match getRejects env with
  | Some _ => w
  | None =>
      match importDestination (state w) with
      | StoreProducts =>
          match ShopCategories (database w) with
          | Some data =>
              updState (setExistingStoreCategories
                          (seq (length (shopHeap w)) (length data)))
                       (withShopHeap (shopHeap w ++ data) w)
          | None => w
          end
      | WebsiteManagement =>
          match HomeItems (database w) with
          | Some data =>
              updState (setExistingWebsiteCategories
                          (zip (JS.keys data)
                               (seq (length (homeHeap w)) (length data))))
                       (withHomeHeap (homeHeap w ++ JS.values data) w)
          | None => w
          end
      end
  end.

Definition candidateIsDuplicate (item : Candidate) : option bool :=
  match item with
  | StoreCandidate p => isDuplicate p
  | WebsiteCandidate i => isDuplicate_w i
  end.

(** [previewData.filter(item => !item.isDuplicate)] or [previewData]. *)
Definition itemsToImport (s : State) : list Candidate :=
  if skipDuplicates s
  then filter (λ item, candidateIsDuplicate item ≠ Some true) (previewData s)
  else previewData s.

(** The casts of [itemsToImport] to the shape of the destination.  They
    are unchecked in the source; the component only ever holds
    candidates built by [convertToFormat] for the active destination
    (every change of destination resets the form), and a list of the
    other shape is reported here as not well-typed. *)
Definition asStoreProducts (items : list Candidate)
    : option (list ParsedStoreProduct) :=
  mapM (λ item, match item with
                | StoreCandidate p => Some p
                | WebsiteCandidate _ => None
                end) items.

Definition asWebsiteItems (items : list Candidate)
    : option (list ParsedWebsiteItem) :=
  mapM (λ item, match item with
                | WebsiteCandidate i => Some i
                | StoreCandidate _ => None
                end) items.

Definition notWellTyped : string := "candidate of the other destination".

Definition importMessage (total imported : nat) : string :=
  if bool_decide (0 < total - imported)
  then "Successfully imported " +:+ pretty imported +:+ " items (" +:+
       pretty (total - imported) +:+ " duplicates skipped)"
  else "Successfully imported " +:+ pretty imported +:+ " items".

Definition handleImport (w : World) (env : Env) : World :=
  let s := state w in
  if bool_decide (length (previewData s) = 0) then
    toast (ToastError "No data to import") w
  else if negb (JS.truthy (selectedCategory s))
          && negb (JS.truthy (JS.trim (newCategoryName s))) then
    toast (ToastError
             "Please select an existing category or enter a new category name") w
  else if bool_decide (length (itemsToImport s) = 0) then
    toast (ToastError "No items to import after filtering duplicates") w
  else
    let w1 := updState (setUploading true) w in
    let '(w2, outcome) :=
      match importDestination s with
      | StoreProducts =>
          match asStoreProducts (itemsToImport s) with
          | Some products => importToStoreProducts w1 env products
          | None => (w1, Throw notWellTyped)
          end
      | WebsiteManagement =>
          match asWebsiteItems (itemsToImport s) with
          | Some items => importToWebsiteManagement w1 env items
          | None => (w1, Throw notWellTyped)
          end
      end in
    match outcome with
    | Ok _ =>
        let w3 := toast (ToastSuccess
                           (importMessage (length (previewData s))
                                          (length (itemsToImport s)))) w2 in
        updState (setUploading false)
          (fetchExistingCategories (updState resetForm w3) env)
    | Throw e =>
        updState (setUploading false)
          (toast (ToastError ("Failed to import items: " +:+ e)) w2)
    end.

(** [removePreviewItem]: the row goes, and the counts of an existing
    result are recomputed from the rows that stay. *)
Definition removePreviewItem (w : World) (index : nat) : World :=
  let s := state w in
  let newPreviewData := delete index (previewData s) in
  let w1 := updState (setPreviewData newPreviewData) w in
  match duplicateCheckResult s with
  | Some result =>
      let duplicateCount :=
        length (filter (λ p, candidateIsDuplicate p = Some true) newPreviewData) in
      updState (setDuplicateCheckResult
                  (Some {| totalProducts := Z.of_nat (length newPreviewData);
                           duplicates := Z.of_nat duplicateCount;
                           newProducts := (Z.of_nat (length newPreviewData)
                                           - Z.of_nat duplicateCount)%Z;
                           duplicateDetails := duplicateDetails result |}))
               w1
  | None => w1
  end.

End Component.

(** * Facts about the built-ins *)

Lemma app_cons (c : ascii) (s t : string) : String c s +:+ t = String c (s +:+ t).
Proof. reflexivity. Qed.

Lemma app_empty_l (s : string) : "" +:+ s = s.
Proof. reflexivity. Qed.

Lemma app_empty_r (s : string) : s +:+ "" = s.
Proof. induction s as [|c s IH]; [done|]. by rewrite app_cons, IH. Qed.

Lemma app_assoc_str (s t u : string) : (s +:+ t) +:+ u = s +:+ (t +:+ u).
Proof. induction s as [|c s IH]; [done|]. by rewrite !app_cons, IH. Qed.


Lemma removeQuotes_clean (s : string) :
  JS.occurs JS.dquote (JS.removeQuotes s) = false.
Proof.
  induction s as [|c s IH]; [done|]. simpl.
  destruct (decide (c = JS.dquote)) as [->|Hne]; [done|].
  simpl. by rewrite bool_decide_eq_false_2.
Qed.











(** ** [parseCSVLine] *)


(** The pieces of an unquoted stretch, the first one continuing the
    field that is open. *)
Definition glue (current : string) (pieces : list string) : list string :=
  match pieces with
  | piece :: rest => (current +:+ piece) :: rest
  | [] => [current]
  end.

Lemma split_nonempty (sep : ascii) (s : string) : JS.split sep s ≠ [].
Proof.
  destruct s as [|c s]; [done|]. simpl.
  destruct (decide (c = sep)); [done|]. by destruct (JS.split sep s).
Qed.


Lemma loop_unquoted_comma (a rest : string) (result : list string)
    (current : string) :
  JS.occurs JS.dquote a = false →
  parseCSVLine_loop (a +:+ String JS.comma rest) result current false
  = parseCSVLine_loop rest (result ++ glue current (JS.split JS.comma a)) "" false.
Proof.
  revert result current.
  induction a as [|c a IH]; intros result current Ha.
  - simpl. by rewrite app_empty_r.
  - simpl in Ha. apply orb_false_elim in Ha as [Hc Ha].
    rewrite app_cons. simpl. rewrite Hc. simpl.
    destruct (decide (c = JS.comma)) as [->|Hcomma].
    + rewrite bool_decide_eq_true_2 by done. simpl. rewrite IH by done.
      rewrite <- app_assoc. simpl. rewrite app_empty_r.
      pose proof (split_nonempty JS.comma a).
      by destruct (JS.split JS.comma a).
    + rewrite bool_decide_eq_false_2 by done. simpl. rewrite IH by done.
      pose proof (split_nonempty JS.comma a).
      destruct (JS.split JS.comma a); [done|]. simpl.
      by rewrite app_assoc_str.
Qed.

Lemma loop_quoted (q rest : string) (result : list string) (current : string) :
  JS.occurs JS.dquote q = false →
  parseCSVLine_loop (q +:+ String JS.dquote rest) result current true
  = parseCSVLine_loop rest result (current +:+ q) false.
Proof.
  revert current.
  induction q as [|c q IH]; intros current Hq.
  - simpl. by rewrite app_empty_r.
  - simpl in Hq. apply orb_false_elim in Hq as [Hc Hq].
    rewrite app_cons. simpl. rewrite Hc. simpl.
    rewrite andb_false_r. rewrite IH by done.
    by rewrite app_assoc_str.
Qed.



(** ** Rows *)

(** The text [buildRow] stores for column [index]. *)
Definition cellText (values : list string) (index : nat) : string :=
  JS.or_else ((λ v, JS.trim (JS.removeQuotes v)) <$> values !! index) "".

Lemma or_else_Some_empty (s : string) : JS.or_else (Some s) "" = s.
Proof. by destruct s. Qed.

Lemma cellText_Some (values : list string) (index : nat) (cell : string) :
  values !! index = Some cell →
  cellText values index = JS.trim (JS.removeQuotes cell).
Proof. unfold cellText. intros ->. simpl. apply or_else_Some_empty. Qed.

Lemma buildRow_snoc (headers values : list string) (header : string) :
  buildRow (headers ++ [header]) values
  = assignCell (buildRow headers values) header (cellText values (length headers)).
Proof.
  unfold buildRow. rewrite imap_app, foldl_app. simpl.
  by rewrite Nat.add_0_r.
Qed.

Lemma buildRow_lookup_Some (headers values : list string) (h v : string) :
  buildRow headers values !! h = Some v →
  ∃ j, headers !! j = Some h ∧ v = cellText values j.
Proof.
  induction headers as [|header headers IH] using rev_ind.
  - unfold buildRow. simpl. by rewrite lookup_empty.
  - rewrite buildRow_snoc. unfold assignCell.
    destruct (decide (header = "__proto__")) as [_|_].
    + intros (j & Hj & ->)%IH. exists j. split; [|done].
      by apply lookup_app_l_Some.
    + destruct (decide (header = h)) as [->|Hne].
      * rewrite lookup_insert_eq. intros [= <-].
        exists (length headers). split; [|done].
        by rewrite list_lookup_middle.
      * rewrite lookup_insert_ne by done.
        intros (j & Hj & ->)%IH. exists j. split; [|done].
        by apply lookup_app_l_Some.
Qed.

Lemma buildRow_lookup_last (headers values : list string) (j : nat) (h : string) :
  headers !! j = Some h →
  h ≠ "__proto__" →
  (∀ j', j < j' → headers !! j' ≠ Some h) →
  buildRow headers values !! h = Some (cellText values j).
Proof.
  revert j. induction headers as [|header headers IH] using rev_ind;
    intros j Hj Hproto Hlast; [done|].
  rewrite buildRow_snoc. unfold assignCell.
  destruct (decide (j = length headers)) as [->|Hne].
  - rewrite list_lookup_middle in Hj by done. injection Hj as ->.
    rewrite decide_False by done. apply lookup_insert_eq.
  - assert (j < length headers) as Hlt.
    { apply lookup_lt_Some in Hj. rewrite length_app in Hj. simpl in Hj. lia. }
    rewrite lookup_app_l in Hj by done.
    assert (header ≠ h) as Hother.
    { intros ->. apply (Hlast (length headers)); [done|].
      by rewrite list_lookup_middle. }
    assert (buildRow headers values !! h = Some (cellText values j)) as Hrow.
    { apply IH; [done..|]. intros j' Hj' Hsome. apply (Hlast j' Hj').
      by apply lookup_app_l_Some. }
    destruct (decide (header = "__proto__")); [done|].
    by rewrite lookup_insert_ne.
Qed.

(** The loop over the data lines, as a filter followed by a map. *)
Lemma parseRows_loop (headers : list string) (dataLines : list string)
    (data : list ProductData) :
  foldl (λ data line,
           let values := parseCSVLine line in
           if bool_decide (length values = length headers)
           then data ++ [buildRow headers values]
           else data)
        data dataLines
  = data ++ ((λ line, buildRow headers (parseCSVLine line)) <$>
             filter (λ line, length (parseCSVLine line) = length headers) dataLines).
Proof.
  revert data. induction dataLines as [|line dataLines IH]; intros data; simpl.
  - by rewrite app_nil_r.
  - rewrite IH. rewrite filter_cons. case_bool_decide as Hlen.
    + rewrite decide_True by done. by rewrite <- app_assoc.
    + by rewrite decide_False by done.
Qed.




Lemma parseRows_Ok (text : string) (header : string) (dataLines : list string) :
  nonEmptyLines text = header :: dataLines →
  dataLines ≠ [] →
  parseRows text
  = Ok ((λ line, buildRow (parseHeaders header) (parseCSVLine line)) <$>
        filter (λ line, length (parseCSVLine line) = length (parseHeaders header))
               dataLines).
Proof.
  intros Hlines Hdata. unfold parseRows. rewrite Hlines.
  rewrite bool_decide_eq_false_2.
  - simpl. by rewrite parseRows_loop.
  - destruct dataLines; [done|]. simpl. lia.
Qed.

Lemma parseRows_Throw (text : string) :
  length (nonEmptyLines text) < 2 → parseRows text = Throw tooShort.
Proof. intros H. unfold parseRows. by rewrite bool_decide_eq_true_2. Qed.



(** * The duplicate detector *)

(** The writes to [existingUrls] in the order the loops make them: the
    link of an item and the label of its category. *)
Definition indexUrls (entries : list (string * string)) (m : gmap string string)
    : gmap string string :=
  foldl (λ m '(url, label),
           if JS.truthy url then <[normalizeUrl url := label]> m else m)
        m entries.

Lemma indexUrls_app (es1 es2 : list (string * string)) (m : gmap string string) :
  indexUrls (es1 ++ es2) m = indexUrls es2 (indexUrls es1 m).
Proof. apply foldl_app. Qed.

Lemma indexUrls_Some (entries : list (string * string)) (m : gmap string string)
    (u t : string) :
  indexUrls entries m !! u = Some t →
  m !! u = Some t ∨
  ∃ url, (url, t) ∈ entries ∧ url ≠ "" ∧ normalizeUrl url = u.
Proof.
  revert m. induction entries as [|[url label] entries IH]; intros m; simpl.
  - by left.
  - intros [H|(url' & Hin & Hne & Hn)]%IH.
    + destruct url as [|c url]; simpl in H; [by left|].
      destruct (decide (normalizeUrl (String c url) = u)) as [<-|Hu].
      * rewrite lookup_insert_eq in H. injection H as ->.
        right. exists (String c url). split; [left|done].
      * rewrite lookup_insert_ne in H by done. by left.
    + right. exists url'. split; [by right|done].
Qed.



Section Detector.

Context {number : Type}.

Definition storeEntries (categories : list (@ShopCategory number))
    : list (string * string) :=
  categories ≫= λ category,
    match shop_items category with
    | Some items => (λ item, (links item, shop_title category)) <$> JS.values items
    | None => []
    end.

Definition websiteEntries (categories : JS.obj HomeCategory)
    : list (string * string) :=
  JS.values categories ≫= λ category,
    match home_items category with
    | Some items => (λ item, (click item, home_name category)) <$> JS.values items
    | None => []
    end.

Lemma existingUrls_store_entries (categories : list (@ShopCategory number)) :
  existingUrls_store categories = indexUrls (storeEntries categories) ∅.
Proof.
  unfold existingUrls_store. generalize (∅ : gmap string string).
  induction categories as [|category categories IH]; intros m; [done|].
  unfold storeEntries. rewrite bind_cons. fold (storeEntries categories).
  rewrite indexUrls_app. simpl. rewrite IH. f_equal.
  destruct (shop_items category) as [items|]; [|done].
  unfold JS.values. generalize (items.*2). clear. intros l. revert m.
  induction l as [|item l IH]; intros m; [done|]. simpl. apply IH.
Qed.

Lemma existingUrls_website_entries (categories : JS.obj HomeCategory) :
  existingUrls_website categories = indexUrls (websiteEntries categories) ∅.
Proof.
  unfold existingUrls_website, websiteEntries.
  generalize (∅ : gmap string string). generalize (JS.values categories).
  intros l. induction l as [|category l IH]; intros m; [done|].
  rewrite bind_cons, indexUrls_app. simpl. rewrite IH. f_equal.
  destruct (home_items category) as [items|]; [|done].
  unfold JS.values. generalize (items.*2). clear. intros l. revert m.
  induction l as [|item l IH]; intros m; [done|]. simpl. apply IH.
Qed.

(** An item with link [url] is held by a category labelled [label], among
    the categories of the destination. *)
Definition holdsUrl (importDestination : ImportDestination)
    (existingStoreCategories : list (@ShopCategory number))
    (existingWebsiteCategories : JS.obj HomeCategory)
    (url label : string) : Prop :=
  match importDestination with
  | StoreProducts =>
      ∃ category items item,
        category ∈ existingStoreCategories ∧ shop_items category = Some items ∧
        item ∈ JS.values items ∧ links item = url ∧ shop_title category = label
  | WebsiteManagement =>
      ∃ category items item,
        category ∈ JS.values existingWebsiteCategories ∧
        home_items category = Some items ∧
        item ∈ JS.values items ∧ click item = url ∧ home_name category = label
  end.

(** The map the detector builds for a destination. *)
Definition existingUrlsOf (importDestination : ImportDestination)
    (existingStoreCategories : list (@ShopCategory number))
    (existingWebsiteCategories : JS.obj HomeCategory) : gmap string string :=
  match importDestination with
  | StoreProducts => existingUrls_store existingStoreCategories
  | WebsiteManagement => existingUrls_website existingWebsiteCategories
  end.

Lemma storeEntries_elem (categories : list (@ShopCategory number))
    (url label : string) :
  (url, label) ∈ storeEntries categories
  ↔ holdsUrl StoreProducts categories [] url label.
Proof.
  unfold storeEntries, holdsUrl. rewrite list_elem_of_bind. split.
  - intros (category & Hin & Hc).
    destruct (shop_items category) as [items|] eqn:E; [|by apply elem_of_nil in Hin].
    apply list_elem_of_fmap in Hin as (item & [= -> ->] & Hitem).
    by exists category, items, item.
  - intros (category & items & item & Hc & E & Hitem & <- & <-).
    exists category. split; [|done]. rewrite E.
    apply list_elem_of_fmap. by exists item.
Qed.

Lemma websiteEntries_elem (categories : JS.obj HomeCategory) (url label : string) :
  (url, label) ∈ websiteEntries categories
  ↔ holdsUrl WebsiteManagement [] categories url label.
Proof.
  unfold websiteEntries, holdsUrl. rewrite list_elem_of_bind. split.
  - intros (category & Hin & Hc).
    destruct (home_items category) as [items|] eqn:E; [|by apply elem_of_nil in Hin].
    apply list_elem_of_fmap in Hin as (item & [= -> ->] & Hitem).
    by exists category, items, item.
  - intros (category & items & item & Hc & E & Hitem & <- & <-).
    exists category. split; [|done]. rewrite E.
    apply list_elem_of_fmap. by exists item.
Qed.


(** Every entry of the map comes from an item with a non-empty link. *)
Lemma existingUrlsOf_Some (importDestination : ImportDestination)
    (sc : list (@ShopCategory number)) (wc : JS.obj HomeCategory) (u t : string) :
  existingUrlsOf importDestination sc wc !! u = Some t →
  ∃ url, holdsUrl importDestination sc wc url t ∧ url ≠ "" ∧ normalizeUrl url = u.
Proof.
  destruct importDestination; simpl.
  - rewrite existingUrls_store_entries.
    intros [H|(url & Hin & Hne & Hn)]%indexUrls_Some; [by rewrite lookup_empty in H|].
    exists url. split; [|done]. by apply storeEntries_elem in Hin.
  - rewrite existingUrls_website_entries.
    intros [H|(url & Hin & Hne & Hn)]%indexUrls_Some; [by rewrite lookup_empty in H|].
    exists url. split; [|done].
    by apply (websiteEntries_elem wc url t) in Hin.
Qed.


End Detector.

Section Annotations.

Context {number : Type}.

Definition candidateSource (item : @Candidate number) : option string :=
  match item with
  | StoreCandidate p => duplicateSource p
  | WebsiteCandidate i => duplicateSource_w i
  end.

(** A candidate in the shape of the destination. *)
Definition wellShaped (importDestination : ImportDestination)
    (product : @Candidate number) : Prop :=
  is_Some (candidateUrl importDestination product).

(** What one turn of the map does to a candidate, and the detail record
    it pushes, if any. *)
Definition annotate (importDestination : ImportDestination)
    (existingUrls : gmap string string) (product : @Candidate number) : Candidate :=
  match candidateUrl importDestination product with
  | Some url =>
      let found := default "" (existingUrls !! normalizeUrl url) in
      if JS.truthy found then markDuplicate product found else markNew product
  | None => product
  end.

Definition detailOf (importDestination : ImportDestination)
    (existingUrls : gmap string string) (product : @Candidate number)
    : option DuplicateDetail :=
  match candidateUrl importDestination product with
  | Some url =>
      let found := default "" (existingUrls !! normalizeUrl url) in
      if JS.truthy found
      then Some {| productName := default "" (candidateName importDestination product);
                   clickUrl := url; foundInCategory := found |}
      else None
  | None => None
  end.

Lemma checkProducts_wellShaped (importDestination : ImportDestination)
    (existingUrls : gmap string string) (products : list (@Candidate number)) :
  Forall (wellShaped importDestination) products →
  checkProducts importDestination existingUrls products
  = Ok (annotate importDestination existingUrls <$> products,
        omap (detailOf importDestination existingUrls) products).
Proof.
  induction 1 as [|product products [url Hurl] _ IH]; [done|].
  simpl. rewrite IH. unfold annotate, detailOf. rewrite Hurl. simpl.
  by destruct (JS.truthy _).
Qed.

Lemma checkProducts_Ok (importDestination : ImportDestination)
    (existingUrls : gmap string string) (products checked : list (@Candidate number))
    (details : list DuplicateDetail) :
  checkProducts importDestination existingUrls products = Ok (checked, details) →
  Forall (wellShaped importDestination) products.
Proof.
  revert checked details.
  induction products as [|product products IH]; intros checked details; [done|].
  simpl. destruct (candidateUrl importDestination product) as [url|] eqn:E; [|done].
  destruct (checkProducts importDestination existingUrls products)
    as [[checked' details']|] eqn:E'; [|done].
  intros _. constructor; [by exists url|]. by eapply IH.
Qed.

Lemma markDuplicate_url (importDestination : ImportDestination)
    (product : @Candidate number) (found : string) :
  candidateUrl importDestination (markDuplicate product found)
  = candidateUrl importDestination product.
Proof. by destruct importDestination, product. Qed.

Lemma markNew_url (importDestination : ImportDestination)
    (product : @Candidate number) :
  candidateUrl importDestination (markNew product)
  = candidateUrl importDestination product.
Proof. by destruct importDestination, product. Qed.

Lemma annotate_url (importDestination : ImportDestination)
    (existingUrls : gmap string string) (product : @Candidate number) :
  candidateUrl importDestination (annotate importDestination existingUrls product)
  = candidateUrl importDestination product.
Proof.
  unfold annotate.
  destruct (candidateUrl importDestination product) as [url|] eqn:E; [|done].
  simpl. destruct (JS.truthy _); [by rewrite markDuplicate_url|by rewrite markNew_url].
Qed.

Lemma annotate_flag (importDestination : ImportDestination)
    (existingUrls : gmap string string) (product : @Candidate number) (url : string) :
  candidateUrl importDestination product = Some url →
  candidateIsDuplicate (annotate importDestination existingUrls product)
  = Some (JS.truthy (default "" (existingUrls !! normalizeUrl url))).
Proof.
  unfold annotate. intros ->. simpl.
  destruct (JS.truthy _); by destruct product.
Qed.


Lemma annotate_idemp (importDestination : ImportDestination)
    (existingUrls : gmap string string) (product : @Candidate number) :
  annotate importDestination existingUrls
    (annotate importDestination existingUrls product)
  = annotate importDestination existingUrls product.
Proof.
  unfold annotate at 1. rewrite annotate_url. unfold annotate.
  destruct (candidateUrl importDestination product) as [url|] eqn:E; [|done].
  simpl. destruct (JS.truthy _); by destruct product.
Qed.

Lemma detailOf_annotate (importDestination : ImportDestination)
    (existingUrls : gmap string string) (product : @Candidate number) :
  detailOf importDestination existingUrls
    (annotate importDestination existingUrls product)
  = detailOf importDestination existingUrls product.
Proof.
  unfold detailOf. rewrite annotate_url. unfold annotate.
  destruct (candidateUrl importDestination product) as [url|] eqn:E; [|done].
  simpl. destruct (JS.truthy _) eqn:T; [|done].
  by destruct importDestination, product.
Qed.

Lemma details_count (importDestination : ImportDestination)
    (existingUrls : gmap string string) (products : list (@Candidate number)) :
  Forall (wellShaped importDestination) products →
  length (omap (detailOf importDestination existingUrls) products)
  = length (filter (λ p, candidateIsDuplicate p = Some true)
                   (annotate importDestination existingUrls <$> products)).
Proof.
  induction 1 as [|product products [url Hurl] _ IH]; [done|].
  rewrite fmap_cons, filter_cons, (annotate_flag _ _ _ _ Hurl). simpl.
  unfold detailOf at 1. rewrite Hurl. simpl.
  destruct (JS.truthy _).
  - rewrite decide_True by done. simpl. f_equal. exact IH.
  - rewrite decide_False by done. exact IH.
Qed.

Lemma detectDuplicates_wellShaped (importDestination : ImportDestination)
    (sc : list (@ShopCategory number)) (wc : JS.obj HomeCategory)
    (products : list Candidate) :
  Forall (wellShaped importDestination) products →
  detectDuplicates importDestination sc wc products
  = let existingUrls := existingUrlsOf importDestination sc wc in
    let details := omap (detailOf importDestination existingUrls) products in
    Ok (annotate importDestination existingUrls <$> products,
        {| totalProducts := Z.of_nat (length products);
           duplicates := Z.of_nat (length details);
           newProducts := (Z.of_nat (length products) - Z.of_nat (length details))%Z;
           duplicateDetails := details |}).
Proof.
  intros H. unfold detectDuplicates.
  fold (existingUrlsOf importDestination sc wc).
  by rewrite (checkProducts_wellShaped _ _ _ H).
Qed.

Lemma detectDuplicates_Ok (importDestination : ImportDestination)
    (sc : list (@ShopCategory number)) (wc : JS.obj HomeCategory)
    (products checked : list Candidate) (result : DuplicateCheckResult) :
  detectDuplicates importDestination sc wc products = Ok (checked, result) →
  Forall (wellShaped importDestination) products.
Proof.
  unfold detectDuplicates.
  destruct (checkProducts _ _ products) as [[checked' details]|] eqn:E; [|done].
  intros _. by eapply checkProducts_Ok.
Qed.


(** C8. Candidates are compared with the existing categories only: two
    candidates of one file that share a normalised link which no existing
    item has are both marked as not duplicate. *)
Theorem C8_no_intra_file_check (importDestination : ImportDestination)
    (sc : list (@ShopCategory number)) (wc : JS.obj HomeCategory)
    (products : list Candidate) (i j : nat) (pi pj : Candidate) (ui uj : string) :
  Forall (wellShaped importDestination) products →
  i ≠ j →
  products !! i = Some pi → products !! j = Some pj →
  candidateUrl importDestination pi = Some ui →
  candidateUrl importDestination pj = Some uj →
  normalizeUrl ui = normalizeUrl uj →
  (∀ url label, holdsUrl importDestination sc wc url label →
                normalizeUrl url ≠ normalizeUrl ui) →
  ∃ checked result pi' pj',
    detectDuplicates importDestination sc wc products = Ok (checked, result) ∧
    checked !! i = Some pi' ∧ checked !! j = Some pj' ∧
    candidateIsDuplicate pi' = Some false ∧
    candidateIsDuplicate pj' = Some false.
Proof.
  intros Hshape _ Hi Hj Hui Huj Hsame Hfresh.
  rewrite (detectDuplicates_wellShaped _ _ _ _ Hshape). cbv zeta.
  set (m := existingUrlsOf importDestination sc wc).
  assert (m !! normalizeUrl ui = None) as Hnone.
  { destruct (m !! normalizeUrl ui) as [found|] eqn:E; [|done].
    apply existingUrlsOf_Some in E as (url & Hholds & _ & Hn).
    by destruct (Hfresh _ _ Hholds). }
  eexists _, _, (annotate importDestination m pi), (annotate importDestination m pj).
  split; [done|].
  rewrite !list_lookup_fmap, Hi, Hj.
  rewrite (annotate_flag _ _ _ _ Hui), (annotate_flag _ _ _ _ Huj).
  by rewrite <- Hsame, Hnone.
Qed.

End Annotations.

(** * The detector inside the component *)

Section ComponentFacts.

Context {number : Type}.
Variable zero : number.
Variable toBoolean : number → bool.
Variable parseFloat : string → number.

Implicit Types (w : @World number) (products : list (@Candidate number)).

Lemma checkForDuplicates_reads w products :
  let w1 := (checkForDuplicates w products).1 in
  importDestination (state w1) = importDestination (state w) ∧
  storeCategories w1 = storeCategories w ∧
  websiteCategories w1 = websiteCategories w.
Proof.
  unfold checkForDuplicates.
  by destruct (detectDuplicates _ _ _ products) as [[checked result]|e].
Qed.

Lemma detectDuplicates_annotated (importDestination : ImportDestination)
    (sc : list (@ShopCategory number)) (wc : JS.obj HomeCategory)
    products (checked : list Candidate) (result : DuplicateCheckResult) :
  detectDuplicates importDestination sc wc products = Ok (checked, result) →
  detectDuplicates importDestination sc wc checked = Ok (checked, result).
Proof.
  intros H. pose proof (detectDuplicates_Ok _ _ _ _ _ _ H) as Hshape.
  rewrite (detectDuplicates_wellShaped _ _ _ _ Hshape) in H. cbv zeta in H.
  injection H as <- <-.
  set (m := existingUrlsOf importDestination sc wc).
  assert (Forall (wellShaped importDestination)
                 (annotate importDestination m <$> products)) as Hshape'.
  { apply Forall_fmap. eapply Forall_impl; [exact Hshape|].
    intros p Hp. unfold wellShaped, compose. by rewrite annotate_url. }
  rewrite (detectDuplicates_wellShaped _ _ _ _ Hshape'). cbv zeta. fold m.
  assert (omap (detailOf importDestination m) (annotate importDestination m <$> products)
          = omap (detailOf importDestination m) products) as ->.
  { clear. induction products as [|p products IH]; [done|].
    rewrite fmap_cons. simpl. rewrite detailOf_annotate.
    destruct (detailOf importDestination m p); [f_equal|]; exact IH. }
  rewrite <- list_fmap_compose, length_fmap. f_equal. f_equal.
  apply list_fmap_ext. intros _ p _. simpl. apply annotate_idemp.
Qed.

(** C7. With the state otherwise untouched, a second run of the detector
    on the same candidates, and equally a run on the list the first run
    annotated, gives the same result, the same annotated list and the
    same state. *)
Theorem C7_detection_repeatable w products :
  let w1 := (checkForDuplicates w products).1 in
  let r1 := (checkForDuplicates w products).2 in
  checkForDuplicates w1 products = (w1, r1) ∧
  ∀ result, r1 = Ok result →
    previewData (state w1)
    = (annotate (importDestination (state w))
         (existingUrlsOf (importDestination (state w)) (storeCategories w)
            (websiteCategories w)) <$> products) ∧
    duplicateCheckResult (state w1) = Some result ∧
    checkForDuplicates w1 (previewData (state w1)) = (w1, Ok result).
Proof.
  cbv zeta.
  destruct (checkForDuplicates_reads w products) as (Hd & Hs & Hw).
  split.
  - unfold checkForDuplicates at 1. rewrite Hd, Hs, Hw.
    unfold checkForDuplicates.
    by destruct (detectDuplicates _ _ _ products) as [[checked result]|e].
  - intros result Hr.
    unfold checkForDuplicates at 3. rewrite Hd, Hs, Hw. clear Hd Hs Hw.
    revert Hr. unfold checkForDuplicates.
    destruct (detectDuplicates _ _ _ products) as [[checked result']|e] eqn:D;
      simpl; [|done].
    intros [= ->].
    pose proof (detectDuplicates_Ok _ _ _ _ _ _ D) as Hshape.
    pose proof D as D'.
    rewrite (detectDuplicates_wellShaped _ _ _ _ Hshape) in D'. cbv zeta in D'.
    injection D' as Hchecked _.
    split; [done|]. split; [done|].
    by rewrite (detectDuplicates_annotated _ _ _ _ _ _ D).
Qed.

(** The counts of a result agree with a list of candidates. *)
Definition countsAgree (preview : list (@Candidate number))
    (r : DuplicateCheckResult) : Prop :=
  totalProducts r = (duplicates r + newProducts r)%Z ∧
  duplicates r
  = Z.of_nat (length (filter (λ p, candidateIsDuplicate p = Some true) preview)) ∧
  totalProducts r = Z.of_nat (length preview).

(** C10. Every result the component produces, by a run of the detector
    or by removing a row of the preview, has total = duplicates + new,
    with the duplicates counting the flagged candidates of the preview
    it is stored with. *)
Theorem C10_counts_add_up :
  (∀ w products w' r,
     checkForDuplicates w products = (w', Ok r) →
     duplicateCheckResult (state w') = Some r ∧
     countsAgree (previewData (state w')) r) ∧
  (∀ w index r,
     duplicateCheckResult (state (removePreviewItem w index)) = Some r →
     countsAgree (previewData (state (removePreviewItem w index))) r).
Proof.
  split.
  - intros w products w' r. unfold checkForDuplicates.
    destruct (detectDuplicates _ _ _ products) as [[checked result]|e] eqn:D;
      [|done].
    intros [= <- <-].
    pose proof (detectDuplicates_Ok _ _ _ _ _ _ D) as Hshape.
    rewrite (detectDuplicates_wellShaped _ _ _ _ Hshape) in D. cbv zeta in D.
    injection D as <- <-.
    split; [done|].
    unfold countsAgree. cbn [previewData state updState setCheckingDuplicates
      setDuplicateCheckResult setPreviewData totalProducts duplicates newProducts].
    rewrite (details_count _ _ _ Hshape), length_fmap. repeat split; lia.
  - intros w index r. unfold removePreviewItem.
    destruct (duplicateCheckResult (state w)) as [result|] eqn:E.
    + destruct w as [[] ? ? ? ?]. simpl in *. intros [= <-].
      unfold countsAgree. simpl. repeat split; lia.
    + destruct w as [[] ? ? ? ?]. simpl in *. by rewrite E.
Qed.

Lemma convertToFormat_wellShaped (importDestination : ImportDestination)
    (item : ProductData) :
  wellShaped importDestination
    (convertToFormat zero toBoolean parseFloat importDestination item).
Proof. destruct importDestination; by eexists. Qed.



End ComponentFacts.

(** * The record normaliser *)

(** The fallback rule in the words of the specification: the first of
    the named columns that is present and not empty, else the default. *)
Definition firstMatch (item : ProductData) (names : list string)
    (fallback : string) : string :=
  default fallback
    (head (omap (λ column, match item !! column with
                           | Some v => if JS.truthy v then Some v else None
                           | None => None
                           end) names)).

Lemma firstMatch_cons (item : ProductData) (column : string)
    (names : list string) (fallback : string) :
  firstMatch item (column :: names) fallback
  = JS.or_else (item !! column) (firstMatch item names fallback).
Proof.
  unfold firstMatch. simpl.
  destruct (item !! column) as [[|c v]|]; done.
Qed.

Lemma firstMatch_nil (item : ProductData) (fallback : string) :
  firstMatch item [] fallback = fallback.
Proof. done. Qed.

(** A row that uses the primary column names only, and one that uses
    the fallback names only. *)
Definition primaryRow (n i c p cur : string) : ProductData :=
  <["Name" := n]> (<["ImageUrl" := i]> (<["ClickUrl" := c]>
    (<["OriginalPrice" := p]> (<["Currency" := cur]> ∅)))).

Definition fallbackRow (n i c p : string) : ProductData :=
  <["Title" := n]> (<["Image" := i]> (<["Link" := c]> (<["Price" := p]> ∅))).

Section Normaliser.

Context {number : Type}.
Variable zero : number.
Variable toBoolean : number → bool.
Variable parseFloat : string → number.

(** C6. Store-mode normalisation takes each field from the first column
    of its list that is present and not empty; a row under the primary
    names and a row with the same values under the fallback names give
    candidates that agree in every field but the pricing, where the
    second row, having no currency column, gets USD. *)
Theorem C6_fallback_columns (n i c p cur : string) :
  (∀ item : ProductData,
     ∃ s, convertToFormat zero toBoolean parseFloat StoreProducts item
          = StoreCandidate s ∧
          title s = firstMatch item ["Name"; "Title"; "ProductName"] "Untitled Product" ∧
          image s = firstMatch item ["ImageUrl"; "Image"] "" ∧
          links s = firstMatch item ["ClickUrl"; "Link"; "Url"] "" ∧
          pricing s = firstMatch item ["Currency"] "USD" +:+ " " +:+
                      firstMatch item ["OriginalPrice"; "Price"] "0") ∧
  ∃ a b,
    convertToFormat zero toBoolean parseFloat StoreProducts (primaryRow n i c p cur)
    = StoreCandidate a ∧
    convertToFormat zero toBoolean parseFloat StoreProducts (fallbackRow n i c p)
    = StoreCandidate b ∧
    title a = title b ∧ image a = image b ∧ links a = links b ∧
    no_of_ratings a = no_of_ratings b ∧ ratings a = ratings b ∧
    isDuplicate a = isDuplicate b ∧ duplicateSource a = duplicateSource b ∧
    pricing a = JS.or_else (Some cur) "USD" +:+ " " +:+ JS.or_else (Some p) "0" ∧
    pricing b = "USD" +:+ " " +:+ JS.or_else (Some p) "0" ∧
    (cur = "" ∨ cur = "USD" → a = b).
Proof.
  split.
  - intros item. eexists. split; [done|].
    rewrite !firstMatch_cons, !firstMatch_nil. done.
  - eexists _, _. split; [done|]. split; [done|].
    unfold primaryRow, fallbackRow. simpl.
    repeat (rewrite lookup_insert_eq || rewrite lookup_insert_ne by done
            || rewrite lookup_empty).
    simpl. do 9 (split; [by destruct n, i, c, p|]).
    intros [->| ->]; by destruct n, i, c, p.
Qed.

End Normaliser.

(** * The importer *)

(** ** Objects *)




(** ** Keys *)

Lemma pretty_N_char_digit (d : N) : pretty_N_char d ≠ JS.underscore.
Proof. unfold pretty_N_char. by repeat case_match. Qed.

Lemma pretty_N_go_digits (x : N) (s : string) :
  JS.occurs JS.underscore s = false →
  JS.occurs JS.underscore (pretty_N_go x s) = false.
Proof.
  revert s. induction (N.lt_wf_0 x) as [x _ IH]; intros s Hs.
  destruct (decide (x = 0)%N) as [->|Hx]; [by rewrite pretty_N_go_0|].
  rewrite pretty_N_go_step by lia. apply IH.
  - apply N.div_lt; lia.
  - simpl. rewrite Hs, orb_false_r. apply bool_decide_eq_false.
    apply pretty_N_char_digit.
Qed.

Lemma pretty_N_digits (x : N) : JS.occurs JS.underscore (pretty x) = false.
Proof.
  unfold pretty, pretty_N. case_decide; [done|]. by apply pretty_N_go_digits.
Qed.

(** Two strings that agree up to and after their first underscore. *)
Lemma first_underscore (s1 s2 t1 t2 : string) :
  JS.occurs JS.underscore s1 = false →
  JS.occurs JS.underscore s2 = false →
  s1 +:+ String JS.underscore t1 = s2 +:+ String JS.underscore t2 →
  s1 = s2 ∧ t1 = t2.
Proof.
  revert s2. induction s1 as [|c s1 IH]; intros [|d s2] H1 H2; simpl in *.
  - by intros [= ->].
  - rewrite !app_cons, app_empty_l. intros [= <- _].
    by rewrite bool_decide_eq_true_2 in H2.
  - rewrite !app_cons, app_empty_l. intros [= -> _].
    by rewrite bool_decide_eq_true_2 in H1.
  - apply orb_false_elim in H1 as [_ H1]. apply orb_false_elim in H2 as [_ H2].
    rewrite !app_cons. intros [= -> H]. by destruct (IH _ H1 H2 H) as [-> ->].
Qed.

Lemma itemKey_inj (env : Env) (i j : nat) : itemKey env i = itemKey env j → i = j.
Proof.
  unfold itemKey. intros H. apply (inj (String.app "item_")) in H.
  apply first_underscore in H as [_ H]; [|apply pretty_N_digits..].
  by apply (inj pretty) in H.
Qed.

(** ** The loop of the importer *)

Lemma addItems_snoc {V} (clean : V → V) (env : Env) (products : list V)
    (product : V) (items : JS.obj V) :
  addItems clean env (products ++ [product]) items
  = JS.set (itemKey env (length products)) (clean product)
           (addItems clean env products items).
Proof.
  unfold addItems. rewrite imap_app, foldl_app. simpl. by rewrite Nat.add_0_r.
Qed.





Lemma omap_deref_lookup {A} (heap : list A) (refs : list nat) (i : nat) :
  Forall (λ r, r < length heap) refs →
  omap (λ r, heap !! r) refs !! i = refs !! i ≫= (λ r, heap !! r).
Proof.
  intros H. revert i. induction H as [|r refs Hr _ IH]; intros i; [done|].
  destruct (lookup_lt_is_Some_2 heap r Hr) as [x Hx].
  simpl. rewrite Hx. simpl. destruct i as [|i]; simpl; [by rewrite Hx|apply IH].
Qed.

Section Importer.

Context {number : Type}.

Implicit Types (w : @World number) (env : Env).

(** Every reference of the store collection points into the heap. *)
Definition wellFormed w : Prop :=
  Forall (λ r, r < length (shopHeap w)) (existingStoreCategories (state w)).

(** The category an import into the store goes to, with the place it has
    in the collection that is written: a new one at the end when a name
    was typed, else the one selected. *)
Definition importTarget w : option (nat * ShopCategory) :=
  let s := state w in
  if JS.truthy (JS.trim (newCategoryName s)) then
    Some (length (existingStoreCategories s),
          {| shop_image := ""; shop_items := Some [];
             shop_title := JS.trim (newCategoryName s) |})
  else
    i ← JS.parseInt (selectedCategory s);
    r ← JS.index (existingStoreCategories s) i;
    category ← shopHeap w !! r;
    Some (Z.to_nat i, category).

Lemma itemsToImport_store (s : @State number) (ps : list ParsedStoreProduct) :
  previewData s = StoreCandidate <$> ps →
  itemsToImport s
  = StoreCandidate <$>
      (if skipDuplicates s then filter (λ p, isDuplicate p ≠ Some true) ps else ps).
Proof.
  unfold itemsToImport. intros ->. destruct (skipDuplicates s); [|done].
  induction ps as [|p ps IH]; [done|].
  rewrite fmap_cons, !filter_cons. simpl.
  destruct (decide (isDuplicate p ≠ Some true)); by rewrite IH.
Qed.

Lemma asStoreProducts_fmap (ps : list (@ParsedStoreProduct number)) :
  asStoreProducts (StoreCandidate <$> ps) = Some ps.
Proof.
  unfold asStoreProducts. induction ps as [|p ps IH]; [done|].
  rewrite fmap_cons. simpl. by rewrite IH.
Qed.


Lemma importTarget_selected w (idx : nat) (cat0 : ShopCategory) :
  importTarget w = Some (idx, cat0) →
  JS.truthy (JS.trim (newCategoryName (state w))) = false →
  JS.truthy (selectedCategory (state w)) = true.
Proof.
  unfold importTarget. intros H Hnew. rewrite Hnew in H.
  by destruct (selectedCategory (state w)).
Qed.

Lemma importToStoreProducts_written w env
    (products : list ParsedStoreProduct) (idx : nat) (cat0 : ShopCategory) :
  wellFormed w →
  importTarget w = Some (idx, cat0) →
  setRejects env = None →
  ∃ w2 cats,
    importToStoreProducts w env products = (w2, Ok ()) ∧
    ShopCategories (database w2) = Some cats ∧
    toasts w2 = toasts w ∧
    cats !! idx
    = Some {| shop_image := shop_image cat0;
              shop_items := Some (addItems cleanProduct env products
                                    (default [] (shop_items cat0)));
              shop_title := shop_title cat0 |}.
Proof.
  intros Hwf Htarget Hset.
  unfold importToStoreProducts, importTarget in *. rewrite Hset.
  destruct (JS.truthy (JS.trim (newCategoryName (state w)))).
  - injection Htarget as <- <-.
    set (refs := existingStoreCategories (state w)) in *.
    set (heap := shopHeap w) in *.
    assert (JS.index (refs ++ [length heap])
              (Z.of_nat (length (refs ++ [length heap])) - 1)%Z
            = Some (length heap)) as Hindex.
    { unfold JS.index. rewrite length_app. simpl.
      rewrite bool_decide_eq_true_2 by lia.
      replace (Z.to_nat (Z.of_nat (length refs + 1) - 1)) with (length refs) by lia.
      by rewrite list_lookup_middle. }
    cbn [mbind option_bind]. rewrite Hindex.
    rewrite list_lookup_middle by done. cbn [shop_items shop_image shop_title default].
    eexists _, _. split; [done|]. split; [done|]. split; [done|].
    cbn [ShopCategories database withDatabase].
    rewrite omap_deref_lookup.
    + rewrite list_lookup_middle by done. simpl.
      apply list_lookup_insert_eq. rewrite length_app. simpl. lia.
    + rewrite length_insert, length_app. simpl.
      apply Forall_app. split; [|apply Forall_singleton; lia].
      eapply Forall_impl; [exact Hwf|]. simpl. unfold heap. intros; lia.
  - destruct (JS.parseInt (selectedCategory (state w))) as [i|]; [|done].
    revert Htarget. cbn [mbind option_bind].
    destruct (JS.index (existingStoreCategories (state w)) i) as [r|] eqn:Hindex;
      [|done].
    cbn [mbind option_bind].
    destruct (shopHeap w !! r) as [category|] eqn:Hr; [|done].
    cbn [mbind option_bind]. intros [= <- <-].
    eexists _, _. split; [done|]. split; [done|]. split; [done|].
    cbn [ShopCategories database withDatabase].
    unfold JS.index in Hindex. case_bool_decide; [|done].
    rewrite omap_deref_lookup.
    + rewrite Hindex. simpl. apply list_lookup_insert_eq.
      by eapply lookup_lt_Some.
    + by rewrite length_insert.
Qed.


(** C4. Without a selected category and without a new name, or when no
    candidate is left to import (as when duplicates are skipped and every
    candidate is flagged), the import only reports an error: nothing is
    written and the state is as before. *)
Theorem C4_rejected_import w env :
  (JS.truthy (selectedCategory (state w)) = false ∧
   JS.truthy (JS.trim (newCategoryName (state w))) = false)
  ∨ itemsToImport (state w) = []
  ∨ (skipDuplicates (state w) = true ∧
     Forall (λ p, candidateIsDuplicate p = Some true) (previewData (state w))) →
  ∃ message,
    handleImport w env = toast (ToastError message) w ∧
    toasts (handleImport w env) = toasts w ++ [ToastError message] ∧
    database (handleImport w env) = database w ∧
    state (handleImport w env) = state w ∧
    shopHeap (handleImport w env) = shopHeap w ∧
    homeHeap (handleImport w env) = homeHeap w.
Proof.
  intros H.
  assert ((JS.truthy (selectedCategory (state w)) = false ∧
           JS.truthy (JS.trim (newCategoryName (state w))) = false)
          ∨ itemsToImport (state w) = []) as [[Hsel Hnew]|Hempty].
  { destruct H as [H|[H|[Hskip Hall]]]; [by left|by right|right].
    unfold itemsToImport. rewrite Hskip.
    induction Hall as [|p ps Hp _ IH]; [done|].
    rewrite filter_cons, decide_False; [done|]. by intros []. }
  - unfold handleImport. rewrite Hsel, Hnew. simpl.
    case_bool_decide; eexists; by rewrite ?H1.
  - unfold handleImport. rewrite Hempty. simpl.
    case_bool_decide; [by eexists|].
    destruct (negb _ && negb _); by eexists.
Qed.

End Importer.

(** ** A rejected write *)

Section RejectedWrite.

Context {number : Type}.

Implicit Types (w : @World number) (env : Env).

Lemma importToStoreProducts_rejected w env (e : string)
    (products : list ParsedStoreProduct) :
  setRejects env = Some e →
  ∃ w2 message,
    importToStoreProducts w env products = (w2, Throw message) ∧
    state w2 = state w ∧ database w2 = database w ∧ toasts w2 = toasts w.
Proof.
  intros H. unfold importToStoreProducts. rewrite H.
  destruct (JS.truthy _); repeat case_match; try done; by eexists _, _.
Qed.

Lemma importToWebsiteManagement_rejected w env (e : string)
    (items : list ParsedWebsiteItem) :
  setRejects env = Some e →
  ∃ w2 message,
    importToWebsiteManagement w env items = (w2, Throw message) ∧
    state w2 = state w ∧ database w2 = database w ∧ toasts w2 = toasts w.
Proof.
  intros H. unfold importToWebsiteManagement. rewrite H.
  destruct (JS.truthy _); repeat case_match; try done; by eexists _, _.
Qed.

(** Whenever the store rejects writes, an import ends with an error
    toast, the store as it was, and the rows and candidates still in the
    state. *)
Lemma rejected_write_keeps_candidates w env (e : string) :
  setRejects env = Some e →
  database (handleImport w env) = database w ∧
  previewData (state (handleImport w env)) = previewData (state w) ∧
  parsedData (state (handleImport w env)) = parsedData (state w) ∧
  ∃ message, toasts (handleImport w env) = toasts w ++ [ToastError message].
Proof.
  intros H. unfold handleImport.
  case_bool_decide; [by eauto|].
  destruct (negb _ && negb _); [by eauto|].
  case_bool_decide; [by eauto|].
  set (w1 := updState (setUploading true) w).
  assert (∃ w2 message,
            match importDestination (state w) with
            | StoreProducts =>
                match asStoreProducts (itemsToImport (state w)) with
                | Some products => importToStoreProducts w1 env products
                | None => (w1, Throw notWellTyped)
                end
            | WebsiteManagement =>
                match asWebsiteItems (itemsToImport (state w)) with
                | Some items => importToWebsiteManagement w1 env items
                | None => (w1, Throw notWellTyped)
                end
            end = (w2, Throw message) ∧
            state w2 = state w1 ∧ database w2 = database w ∧ toasts w2 = toasts w)
    as (w2 & message & -> & Hs & Hd & Ht).
  { destruct (importDestination (state w)).
    - destruct (asStoreProducts _) as [products|]; [|by eexists _, _].
      apply (importToStoreProducts_rejected w1 env e products H).
    - destruct (asWebsiteItems _) as [items|]; [|by eexists _, _].
      apply (importToWebsiteManagement_rejected w1 env e items H). }
  cbn [database previewData parsedData state updState toast toasts setUploading].
  rewrite Hs, Hd, Ht. eauto.
Qed.

End RejectedWrite.

(** * Runs on concrete data

    Ratings are integers here; nothing below reads them. *)

Definition product (productTitle url : string) (flag : option bool)
    (source : option string) : @ParsedStoreProduct Z :=
  {| image := ""; links := url; no_of_ratings := ""; pricing := "USD 0";
     ratings := 0%Z; title := productTitle;
     isDuplicate := flag; duplicateSource := source |}.

Definition electronics : @ShopCategory Z :=
  {| shop_image := "";
     shop_items := Some [("item_1", product "Phone" "https://x.com/p" None None)];
     shop_title := "Electronics" |}.


(** The two spellings of the link of the phone are both flagged, with
    the category as source. *)
Example duplicate_under_case_and_slash :
  detectDuplicates StoreProducts [electronics] []
    [StoreCandidate (product "A" "https://x.com/p" None None);
     StoreCandidate (product "B" "HTTPS://X.COM/P/" None None)]
  = Ok ([StoreCandidate (product "A" "https://x.com/p" (Some true) (Some "Electronics"));
         StoreCandidate (product "B" "HTTPS://X.COM/P/" (Some true) (Some "Electronics"))],
        {| totalProducts := 2; duplicates := 2; newProducts := 0;
           duplicateDetails :=
             [{| productName := "A"; clickUrl := "https://x.com/p";
                 foundInCategory := "Electronics" |};
              {| productName := "B"; clickUrl := "HTTPS://X.COM/P/";
                 foundInCategory := "Electronics" |}] |}).
Proof. vm_compute. reflexivity. Qed.


(** A category without a title: its label in the map is falsy, and the
    candidate with the link of its item is not flagged. *)
Example untitled_category_not_flagged :
  detectDuplicates StoreProducts
    [{| shop_image := "";
        shop_items := Some [("item_1", product "Phone" "https://x.com/p" None None)];
        shop_title := "" |}] []
    [StoreCandidate (product "A" "https://x.com/p" None None)]
  = Ok ([StoreCandidate (product "A" "https://x.com/p" (Some false) None)],
        {| totalProducts := 1; duplicates := 0; newProducts := 1;
           duplicateDetails := [] |}).
Proof. vm_compute. reflexivity. Qed.



Lemma C8_no_intra_file_check_witness :
  ∃ checked result,
    detectDuplicates StoreProducts [electronics] []
      [StoreCandidate (product "A" "https://y.com/q" None None);
       StoreCandidate (product "B" "https://Y.com/q/" None None)]
    = Ok (checked, result) ∧
    candidateIsDuplicate <$> checked = [Some false; Some false].
Proof.
  destruct (C8_no_intra_file_check StoreProducts [electronics] []
              [StoreCandidate (product "A" "https://y.com/q" None None);
               StoreCandidate (product "B" "https://Y.com/q/" None None)]
              0 1
              (StoreCandidate (product "A" "https://y.com/q" None None))
              (StoreCandidate (product "B" "https://Y.com/q/" None None))
              "https://y.com/q" "https://Y.com/q/")
    as (checked & result & pi' & pj' & Hrun & _).
  - repeat constructor; by eexists.
  - lia.
  - reflexivity.
  - reflexivity.
  - reflexivity.
  - reflexivity.
  - vm_compute. reflexivity.
  - intros url label (category & items & item & Hc & Hitems & Hitem & <- & _).
    apply list_elem_of_singleton in Hc as ->. injection Hitems as <-.
    apply list_elem_of_singleton in Hitem as ->. vm_compute. discriminate.
  - exists checked, result. split; [exact Hrun|].
    vm_compute in Hrun. by injection Hrun as <- _.
Defined.

(** ** A file

    A header, a line with a quoted comma, a blank line and a line of the
    wrong arity: one row. *)
Definition sampleText : string :=
  "Name,ClickUrl" +:+ String JS.newline
    (String JS.dquote ("Phone, new" +:+ String JS.dquote
       (", https://x.com/p " +:+ String JS.newline
          ("   " +:+ String JS.newline "broken")))).

Example sampleText_rows :
  parseRows sampleText
  = Ok [<["Name" := "Phone, new"]> (<["ClickUrl" := "https://x.com/p"]> ∅)].
Proof. vm_compute. reflexivity. Qed.

Example headerOnly_rejected : parseRows "Name,ClickUrl" = Throw tooShort.
Proof. vm_compute. reflexivity. Qed.

(** ** Imports *)

Definition idle : @State Z :=
  {| file := None; uploading := false; checkingDuplicates := false;
     parsedData := []; previewData := []; importDestination := StoreProducts;
     selectedCategory := ""; newCategoryName := "";
     existingStoreCategories := []; existingWebsiteCategories := [];
     showPreview := false; duplicateCheckResult := None;
     showDuplicatesOnly := false; skipDuplicates := true |}.

(** Five rows under review, two of them flagged. *)
Definition fiveRows : list (@ParsedStoreProduct Z) :=
  [product "A" "https://x.com/p" (Some true) (Some "Electronics");
   product "B" "https://b.com" (Some false) None;
   product "C" "https://c.com" (Some false) None;
   product "D" "HTTPS://X.COM/P/" (Some true) (Some "Electronics");
   product "E" "https://e.com" (Some false) None].

(** The component holding [electronics], with [rows] under review. *)
Definition reviewing (rows : list (@ParsedStoreProduct Z)) (skip : bool)
    (selected newName : string) : @World Z :=
  {| state :=
       setSkipDuplicates skip
         (setNewCategoryName newName
            (setSelectedCategory selected
               (setShowPreview true
                  (setPreviewData (StoreCandidate <$> rows)
                     (setExistingStoreCategories [0] idle)))));
     shopHeap := [electronics];
     homeHeap := [];
     database := {| ShopCategories := Some [electronics]; HomeItems := None |};
     toasts := [] |}.

Definition accepting : Env :=
  {| now := λ _, 1700000000000%N; pushKey := "-Nabc";
     setRejects := None; getRejects := None |}.

Definition rejecting : Env :=
  {| now := λ _, 1700000000000%N; pushKey := "-Nabc";
     setRejects := Some "PERMISSION_DENIED"; getRejects := None |}.

(** Skipping duplicates writes three of the five rows into the new
    category, importing all writes five. *)
Example skip_writes_three :
  ShopCategories (database (handleImport (reviewing fiveRows true "" "Gadgets") accepting))
  = Some [electronics;
          {| shop_image := "";
             shop_items :=
               Some [("item_1700000000000_0", product "B" "https://b.com" None None);
                     ("item_1700000000000_1", product "C" "https://c.com" None None);
                     ("item_1700000000000_2", product "E" "https://e.com" None None)];
             shop_title := "Gadgets" |}].
Proof. vm_compute. reflexivity. Qed.

Example all_writes_five :
  (λ cats, length <$> (cats !! 1 ≫= shop_items)) <$>
    ShopCategories (database (handleImport (reviewing fiveRows false "" "Gadgets") accepting))
  = Some (Some 5).
Proof. vm_compute. reflexivity. Qed.

(** Into the selected category: the three rows join the item it has. *)
Example skip_writes_three_selected :
  ShopCategories (database (handleImport (reviewing fiveRows true "0" "") accepting))
  = Some [{| shop_image := "";
             shop_items :=
               Some [("item_1", product "Phone" "https://x.com/p" None None);
                     ("item_1700000000000_0", product "B" "https://b.com" None None);
                     ("item_1700000000000_1", product "C" "https://c.com" None None);
                     ("item_1700000000000_2", product "E" "https://e.com" None None)];
             shop_title := "Electronics" |}].
Proof. vm_compute. reflexivity. Qed.


Lemma C4_rejected_import_witness :
  ∃ message,
    handleImport (reviewing (take 1 fiveRows) true "0" "") accepting
    = toast (ToastError message) (reviewing (take 1 fiveRows) true "0" "").
Proof.
  destruct (C4_rejected_import (reviewing (take 1 fiveRows) true "0" "") accepting)
    as (message & Hrun & _).
  - right. right. split; [reflexivity|]. repeat constructor.
  - by exists message.
Defined.

(** The import without a category is turned down as well. *)
Example no_category_no_write :
  handleImport (reviewing fiveRows true "" "  ") accepting
  = toast (ToastError
             "Please select an existing category or enter a new category name")
          (reviewing fiveRows true "" "  ").
Proof. vm_compute. reflexivity. Qed.

(** C5. The write of an import into the selected category is rejected:
    the error is shown, the candidates stay and the store is untouched,
    but the category held in the state has already received the item. *)
Theorem C5_failed_write_mutates_category :
  let before := reviewing [product "B" "https://b.com" (Some false) None] true "0" "" in
  let after := handleImport before rejecting in
  toasts after = [ToastError "Failed to import items: PERMISSION_DENIED"] ∧
  previewData (state after) = previewData (state before) ∧
  database after = database before ∧
  storeCategories before = [electronics] ∧
  storeCategories after
  = [{| shop_image := "";
        shop_items :=
          Some [("item_1", product "Phone" "https://x.com/p" None None);
                ("item_1700000000000_0", product "B" "https://b.com" None None)];
        shop_title := "Electronics" |}] ∧
  storeCategories after ≠ storeCategories before.
Proof.
  cbv zeta. repeat split; try (vm_compute; reflexivity).
  vm_compute. discriminate.
Qed.

(** The same rejected write into a new category leaves the categories of
    the state alone. *)
Example failed_write_new_category :
  let before := reviewing [product "B" "https://b.com" (Some false) None] true "" "Gadgets" in
  let after := handleImport before rejecting in
  toasts after = [ToastError "Failed to import items: PERMISSION_DENIED"] ∧
  storeCategories after = storeCategories before.
Proof. cbv zeta. split; vm_compute; reflexivity. Qed.

(** After the rejected write a second attempt, five seconds later,
    stores the item twice. *)
Definition acceptingLater : Env :=
  {| now := λ _, 1700000005000%N; pushKey := "-Nabd";
     setRejects := None; getRejects := None |}.

Example retry_stores_twice :
  let before := reviewing [product "B" "https://b.com" (Some false) None] true "0" "" in
  ShopCategories
    (database (handleImport (handleImport before rejecting) acceptingLater))
  = Some [{| shop_image := "";
             shop_items :=
               Some [("item_1", product "Phone" "https://x.com/p" None None);
                     ("item_1700000000000_0", product "B" "https://b.com" None None);
                     ("item_1700000005000_0", product "B" "https://b.com" None None)];
             shop_title := "Electronics" |}].
Proof. vm_compute. reflexivity. Qed.

(** * Further properties of the parser *)

(** A field written between double quotes, and fields joined by commas:
    the way the sample files of the component write a line. *)
Definition quoted (field : string) : string :=
  String JS.dquote (field +:+ String JS.dquote "").

Fixpoint joinComma (pieces : list string) : string :=
  match pieces with
  | [] => ""
  | [piece] => piece
  | piece :: rest => piece +:+ String JS.comma (joinComma rest)
  end.

Lemma joinComma_cons (piece next : string) (rest : list string) :
  joinComma (piece :: next :: rest)
  = piece +:+ String JS.comma (joinComma (next :: rest)).
Proof. reflexivity. Qed.

Lemma loop_quoted_fields (fields result : list string) :
  fields ≠ [] →
  Forall (λ f, JS.occurs JS.dquote f = false) fields →
  parseCSVLine_loop (joinComma (quoted <$> fields)) result "" false
  = result ++ fields.
Proof.
  intros Hne Hclean. revert result.
  induction Hclean as [|field fields Hfield Hfields IH]; intros result; [done|].
  destruct fields as [|next fields].
  - simpl. unfold quoted.
    change (parseCSVLine_loop (String JS.dquote ?s) ?r ?c false)
      with (parseCSVLine_loop s r c true).
    by rewrite loop_quoted.
  - rewrite !fmap_cons, joinComma_cons. unfold quoted at 1.
    rewrite app_cons.
    change (parseCSVLine_loop (String JS.dquote ?s) ?r ?c false)
      with (parseCSVLine_loop s r c true).
    rewrite app_assoc_str, app_cons, app_empty_l.
    rewrite loop_quoted by done. rewrite app_empty_l.
    change (parseCSVLine_loop (String JS.comma ?s) ?r ?c false)
      with (parseCSVLine_loop s (r ++ [c]) "" false).
    rewrite <- fmap_cons, IH by done. by rewrite <- app_assoc.
Qed.

(** X1. Fields without double quotes, each written between double quotes
    and joined by commas, are read back by [parseCSVLine] exactly as they
    were, commas inside them included. *)
Theorem parseCSVLine_reads_quoted_fields (fields : list string) :
  fields ≠ [] →
  Forall (λ f, JS.occurs JS.dquote f = false) fields →
  parseCSVLine (joinComma (quoted <$> fields)) = fields.
Proof. intros Hne Hclean. by apply (loop_quoted_fields fields []). Qed.

Lemma parseCSVLine_reads_quoted_fields_witness :
  parseCSVLine (joinComma (quoted <$> ["Phone, new"; ""; "4.5"]))
  = ["Phone, new"; ""; "4.5"].
Proof.
  apply parseCSVLine_reads_quoted_fields; [done|].
  repeat constructor.
Defined.

Lemma loop_open_quote (q : string) (result : list string) (current : string) :
  JS.occurs JS.dquote q = false →
  parseCSVLine_loop q result current true = result ++ [current +:+ q].
Proof.
  revert current. induction q as [|c q IH]; intros current Hq.
  - simpl. by rewrite app_empty_r.
  - simpl in Hq. apply orb_false_elim in Hq as [Hc Hq].
    simpl. rewrite Hc, andb_false_r. rewrite IH by done.
    by rewrite app_assoc_str.
Qed.

(** X2. A double quote that is never closed takes the rest of the line
    into one field: after unquoted fields, the text behind the opening
    quote is a single last field whatever commas it holds. *)
Theorem parseCSVLine_unclosed_quote (a q : string) :
  JS.occurs JS.dquote a = false →
  JS.occurs JS.dquote q = false →
  parseCSVLine (a +:+ String JS.comma (String JS.dquote q))
  = JS.split JS.comma a ++ [q].
Proof.
  intros Ha Hq. unfold parseCSVLine.
  rewrite loop_unquoted_comma by done.
  change (parseCSVLine_loop (String JS.dquote ?s) ?r ?c false)
    with (parseCSVLine_loop s r c true).
  rewrite loop_open_quote by done. simpl.
  pose proof (split_nonempty JS.comma a).
  by destruct (JS.split JS.comma a).
Qed.

Lemma parseCSVLine_unclosed_quote_witness :
  parseCSVLine ("a,b" +:+ String JS.comma (String JS.dquote "c,d,e"))
  = ["a"; "b"; "c,d,e"].
Proof. apply (parseCSVLine_unclosed_quote "a,b" "c,d,e"); reflexivity. Defined.

Lemma split_length_cons (c : ascii) (s : string) :
  length (JS.split JS.comma (String c s))
  = (if decide (c = JS.comma) then 1 else 0) + length (JS.split JS.comma s).
Proof.
  simpl. destruct (decide (c = JS.comma)); [done|].
  pose proof (split_nonempty JS.comma s). by destruct (JS.split JS.comma s).
Qed.

Lemma loop_length_bound (line : string) (result : list string) (current : string)
    (inQuotes : bool) :
  length result + 1 ≤ length (parseCSVLine_loop line result current inQuotes)
  ∧ length (parseCSVLine_loop line result current inQuotes)
    ≤ length result + length (JS.split JS.comma line).
Proof.
  revert result current inQuotes.
  induction line as [|c line IH]; intros result current inQuotes.
  - simpl. rewrite length_app. simpl. lia.
  - rewrite split_length_cons.
    change (parseCSVLine_loop (String c line) result current inQuotes)
      with (if bool_decide (c = JS.dquote) then
              parseCSVLine_loop line result current (negb inQuotes)
            else if bool_decide (c = JS.comma) && negb inQuotes then
              parseCSVLine_loop line (result ++ [current]) "" inQuotes
            else
              parseCSVLine_loop line result (current +:+ String c "") inQuotes).
    case_bool_decide as Hq.
    { destruct (IH result current (negb inQuotes)). destruct (decide _); lia. }
    destruct (decide (c = JS.comma)) as [->|Hc].
    + rewrite bool_decide_eq_true_2 by done. destruct inQuotes; simpl.
      * destruct (IH result (current +:+ String JS.comma "") true). lia.
      * destruct (IH (result ++ [current]) "" false) as [H1 H2].
        rewrite length_app in H1, H2. simpl in H1, H2. lia.
    + rewrite bool_decide_eq_false_2 by done. simpl.
      destruct (IH result (current +:+ String c "") inQuotes). lia.
Qed.

(** X3. [parseCSVLine] always yields at least one field and never more
    fields than the plain split at commas that reads the header: quotes can
    only merge pieces. *)
Theorem parseCSVLine_length_bound (line : string) :
  1 ≤ length (parseCSVLine line) ≤ length (JS.split JS.comma line).
Proof. apply (loop_length_bound line [] "" false). Qed.

(** * Further properties of the duplicate detector *)

(** ** The normalisation of links *)

Lemma toLowerChar_slash (c : ascii) : JS.toLowerChar c = JS.slash ↔ c = JS.slash.
Proof. destruct c as [[] [] [] [] [] [] [] []]; vm_compute; split; congruence. Qed.

Lemma toLowerCase_app (s t : string) :
  JS.toLowerCase (s +:+ t) = JS.toLowerCase s +:+ JS.toLowerCase t.
Proof.
  induction s as [|c s IH]; [done|]. rewrite app_cons. simpl.
  by rewrite IH, app_cons.
Qed.

Lemma stripTrailingSlash_slash (s : string) :
  JS.stripTrailingSlash (s +:+ String JS.slash "") = s.
Proof.
  induction s as [|c s IH]; [done|].
  rewrite app_cons. simpl. rewrite IH.
  destruct s; reflexivity.
Qed.

(** The last character of a string, if it has one. *)
Fixpoint lastChar (s : string) : option ascii :=
  match s with
  | EmptyString => None
  | String c EmptyString => Some c
  | String _ rest => lastChar rest
  end.

Lemma lastChar_snoc (s : string) (c : ascii) : lastChar (s +:+ String c "") = Some c.
Proof.
  induction s as [|d s IH]; [done|]. rewrite app_cons.
  change (lastChar (String d ?r)) with
    (match r with EmptyString => Some d | String _ _ => lastChar r end).
  rewrite IH. by destruct s.
Qed.

Lemma lastChar_toLowerCase (s : string) :
  lastChar (JS.toLowerCase s) = JS.toLowerChar <$> lastChar s.
Proof.
  induction s as [|c s IH]; [done|]. simpl.
  destruct s as [|d s]; [done|]. exact IH.
Qed.

Lemma stripTrailingSlash_other (s : string) :
  lastChar s ≠ Some JS.slash → JS.stripTrailingSlash s = s.
Proof.
  induction s as [|c s IH]; [done|]. intros Hs. simpl.
  destruct s as [|d s].
  - destruct (decide (c = JS.slash)) as [->|]; [done|done].
  - by rewrite IH.
Qed.

(** X4. One slash added to a link that does not end in a slash does not
    change its normalisation, and a second added slash does: only one
    final slash is removed. *)
Theorem normalizeUrl_one_slash (url : string) :
  lastChar url ≠ Some JS.slash →
  normalizeUrl (url +:+ "/") = normalizeUrl url ∧
  normalizeUrl (url +:+ "//") ≠ normalizeUrl url.
Proof.
  intros Hurl.
  assert (lastChar (JS.toLowerCase url) ≠ Some JS.slash) as Hlower.
  { rewrite lastChar_toLowerCase. destruct (lastChar url) as [c|]; [|done].
    simpl. intros [= Hc]. apply toLowerChar_slash in Hc as ->. done. }
  assert (normalizeUrl url = JS.toLowerCase url) as Hplain.
  { unfold normalizeUrl. by apply stripTrailingSlash_other. }
  assert (∀ s, normalizeUrl (s +:+ "/") = JS.toLowerCase s) as Hslash.
  { intros s. unfold normalizeUrl. rewrite toLowerCase_app.
    apply stripTrailingSlash_slash. }
  split; [by rewrite Hslash, Hplain|].
  change "//" with ("/" +:+ "/"). rewrite <- app_assoc_str, Hslash, Hplain.
  rewrite toLowerCase_app. intros H.
  apply Hlower. rewrite <- H. apply lastChar_snoc.
Qed.

Lemma normalizeUrl_one_slash_witness :
  normalizeUrl ("https://x.com/p" +:+ "/") = normalizeUrl "https://x.com/p" ∧
  normalizeUrl ("https://x.com/p" +:+ "//") ≠ normalizeUrl "https://x.com/p".
Proof. apply normalizeUrl_one_slash. vm_compute. discriminate. Defined.

(** ** What the flag depends on *)

Lemma indexUrls_untouched (entries : list (string * string))
    (m : gmap string string) (u : string) :
  (∀ url label, (url, label) ∈ entries → url ≠ "" → normalizeUrl url ≠ u) →
  indexUrls entries m !! u = m !! u.
Proof.
  revert m. induction entries as [|[url label] entries IH]; intros m H; [done|].
  simpl. rewrite IH.
  - destruct url as [|c url]; [done|]. simpl.
    rewrite lookup_insert_ne; [done|]. apply (H _ label); [left|done].
  - intros url' label' Hin. apply (H url' label'). by right.
Qed.

Lemma indexUrls_same_label (entries : list (string * string))
    (m : gmap string string) (u label : string) :
  (∀ url' label', (url', label') ∈ entries → url' ≠ "" →
                  normalizeUrl url' = u → label' = label) →
  (∃ url, (url, label) ∈ entries ∧ url ≠ "" ∧ normalizeUrl url = u)
  ∨ m !! u = Some label →
  indexUrls entries m !! u = Some label.
Proof.
  revert m. induction entries as [|[url l] entries IH]; intros m Hall Hsome.
  - destruct Hsome as [(url & Hin & _)|H]; [by apply elem_of_nil in Hin|done].
  - simpl. apply IH.
    + intros url' label' Hin. apply Hall. by right.
    + destruct (decide (url ≠ "" ∧ normalizeUrl url = u)) as [[Hne Hu]|Hno].
      * right. destruct url as [|c url]; [done|]. simpl. rewrite <- Hu.
        rewrite lookup_insert_eq. f_equal. apply (Hall (String c url)); [left|done..].
      * destruct Hsome as [(url0 & Hin & Hne & Hu)|H].
        -- apply elem_of_cons in Hin as [[= -> ->]|Hin]; [by destruct Hno|].
           left. by exists url0.
        -- right. destruct url as [|c url]; [done|]. simpl.
           rewrite lookup_insert_ne; [done|]. intros Hu. apply Hno. by split.
Qed.

Section DetectorMore.

Context {number : Type}.

Implicit Types (sc : list (@ShopCategory number)) (wc : JS.obj HomeCategory).

(** Two candidates whose links have the same normalisation. *)
Definition sameLink (importDestination : ImportDestination)
    (p q : @Candidate number) : Prop :=
  ∃ u v, candidateUrl importDestination p = Some u ∧
         candidateUrl importDestination q = Some v ∧
         normalizeUrl u = normalizeUrl v.

Lemma sameLink_annotate (importDestination : ImportDestination)
    (m : gmap string string) (p q : @Candidate number) :
  sameLink importDestination p q →
  candidateIsDuplicate (annotate importDestination m p)
  = candidateIsDuplicate (annotate importDestination m q) ∧
  foundInCategory <$> detailOf importDestination m p
  = foundInCategory <$> detailOf importDestination m q.
Proof.
  intros (u & v & Hu & Hv & Huv).
  rewrite (annotate_flag _ _ _ _ Hu), (annotate_flag _ _ _ _ Hv), Huv.
  split; [done|]. unfold detailOf. rewrite Hu, Hv, Huv. simpl.
  by destruct (JS.truthy _).
Qed.

(** X5. The flag of a candidate is a function of its normalised link:
    two lists of candidates whose links agree after normalisation, place
    by place, get the same flags, the same number of duplicates and the
    same source categories. *)
Theorem detection_by_normalised_link (importDestination : ImportDestination)
    sc wc (products products' : list Candidate) :
  Forall2 (sameLink importDestination) products products' →
  ∃ checked checked' result result',
    detectDuplicates importDestination sc wc products = Ok (checked, result) ∧
    detectDuplicates importDestination sc wc products' = Ok (checked', result') ∧
    candidateIsDuplicate <$> checked = candidateIsDuplicate <$> checked' ∧
    duplicates result = duplicates result' ∧
    newProducts result = newProducts result' ∧
    foundInCategory <$> duplicateDetails result
    = foundInCategory <$> duplicateDetails result'.
Proof.
  intros H.
  assert (Forall (wellShaped importDestination) products) as Hs.
  { eapply Forall2_Forall_l; [exact H|]. apply Forall_forall.
    intros q _ p (u & v & Hu & _). by exists u. }
  assert (Forall (wellShaped importDestination) products') as Hs'.
  { eapply Forall2_Forall_r; [exact H|]. apply Forall_forall.
    intros p _ q (u & v & _ & Hv & _). by exists v. }
  rewrite (detectDuplicates_wellShaped _ _ _ _ Hs),
    (detectDuplicates_wellShaped _ _ _ _ Hs'). cbv zeta.
  set (m := existingUrlsOf importDestination sc wc).
  eexists _, _, _, _. split; [done|]. split; [done|].
  cbn [duplicates newProducts duplicateDetails].
  assert (candidateIsDuplicate <$> (annotate importDestination m <$> products)
          = candidateIsDuplicate <$> (annotate importDestination m <$> products')
          ∧ foundInCategory <$> omap (detailOf importDestination m) products
            = foundInCategory <$> omap (detailOf importDestination m) products')
    as [Hflags Hdetails].
  { clear Hs Hs'. induction H as [|p q products products' Hpq _ [IH1 IH2]]; [done|].
    destruct (sameLink_annotate importDestination m p q Hpq) as [Hf Hd].
    split.
    - rewrite !fmap_cons. by rewrite Hf, IH1.
    - cbn [omap list_omap].
      change (list_omap _ _ ?f ?l) with (omap f l).
      destruct (detailOf importDestination m p),
               (detailOf importDestination m q); simplify_eq/=;
        [by rewrite Hd, IH2|exact IH2]. }
  split; [done|].
  assert (length (omap (detailOf importDestination m) products)
          = length (omap (detailOf importDestination m) products')) as Hlen.
  { by rewrite <- (length_fmap foundInCategory), Hdetails, length_fmap. }
  rewrite Hlen, (Forall2_length _ _ _ H). done.
Qed.

End DetectorMore.

Lemma detection_by_normalised_link_witness :
  ∃ checked checked' result result',
    detectDuplicates StoreProducts [electronics] []
      [StoreCandidate (product "A" "https://x.com/p" None None)]
    = Ok (checked, result) ∧
    detectDuplicates StoreProducts [electronics] []
      [StoreCandidate (product "B" "HTTPS://X.COM/P/" None None)]
    = Ok (checked', result') ∧
    candidateIsDuplicate <$> checked = candidateIsDuplicate <$> checked'.
Proof.
  destruct (detection_by_normalised_link StoreProducts [electronics] []
              [StoreCandidate (product "A" "https://x.com/p" None None)]
              [StoreCandidate (product "B" "HTTPS://X.COM/P/" None None)])
    as (c & c' & r & r' & H1 & H2 & H3 & _).
  - repeat constructor. by exists "https://x.com/p", "HTTPS://X.COM/P/".
  - by exists c, c', r, r'.
Defined.

Section LastCategory.

Context {number : Type}.

Lemma existingUrls_store_last (before after : list (@ShopCategory number))
    (c : ShopCategory) (items : JS.obj ParsedStoreProduct)
    (item : ParsedStoreProduct) (u : string) :
  shop_items c = Some items → item ∈ JS.values items →
  links item ≠ "" → normalizeUrl (links item) = u →
  (∀ url label, holdsUrl StoreProducts after [] url label → url ≠ "" →
                normalizeUrl url ≠ u) →
  existingUrls_store (before ++ c :: after) !! u = Some (shop_title c).
Proof.
  intros Hitems Hitem Hne Hu Hafter.
  rewrite existingUrls_store_entries. unfold storeEntries.
  rewrite bind_app, bind_cons, !indexUrls_app.
  fold (storeEntries before). fold (storeEntries after).
  rewrite indexUrls_untouched.
  - apply indexUrls_same_label.
    + rewrite Hitems. intros url' label' Hin _ _.
      by apply list_elem_of_fmap in Hin as (item' & [= _ ->] & _).
    + left. exists (links item). split; [|done]. rewrite Hitems.
      apply list_elem_of_fmap. by exists item.
  - intros url label Hin. apply (Hafter url label). by apply storeEntries_elem.
Qed.

(** X6. When several store categories hold the link of a candidate, the
    last of them in the collection decides: the candidate is flagged with
    that category as source if its title is not empty, and is not flagged
    at all if its title is empty, whatever the categories before it. *)
Theorem last_category_decides (before after : list (@ShopCategory number))
    (wc : JS.obj HomeCategory) (c : ShopCategory)
    (items : JS.obj ParsedStoreProduct) (item p : ParsedStoreProduct) :
  shop_items c = Some items → item ∈ JS.values items →
  links item ≠ "" → normalizeUrl (links item) = normalizeUrl (links p) →
  (∀ url label, holdsUrl StoreProducts after [] url label → url ≠ "" →
                normalizeUrl url ≠ normalizeUrl (links p)) →
  ∃ p' result,
    detectDuplicates StoreProducts (before ++ c :: after) wc [StoreCandidate p]
    = Ok ([StoreCandidate p'], result) ∧
    isDuplicate p' = Some (JS.truthy (shop_title c)) ∧
    (shop_title c ≠ "" → duplicateSource p' = Some (shop_title c)).
Proof.
  intros Hitems Hitem Hne Hu Hafter.
  pose proof (existingUrls_store_last before after c items item _
                Hitems Hitem Hne Hu Hafter) as Hlookup.
  rewrite detectDuplicates_wellShaped by (repeat constructor; by eexists).
  cbv zeta. cbn [existingUrlsOf fmap list_fmap].
  unfold annotate. cbn [candidateUrl]. rewrite Hlookup. cbn [default].
  destruct (shop_title c) as [|ch t]; simpl; eexists _, _; by repeat split.
Qed.

End LastCategory.

(** A category without a title, placed after [electronics], hides the
    match. *)
Lemma last_category_decides_witness :
  ∃ p' result,
    detectDuplicates StoreProducts
      ([electronics] ++
       {| shop_image := "";
          shop_items := Some [("item_9", product "Phone" "https://x.com/p/" None None)];
          shop_title := "" |} :: [])
      [] [StoreCandidate (product "A" "https://X.com/p" None None)]
    = Ok ([StoreCandidate p'], result) ∧
    isDuplicate p' = Some false.
Proof.
  destruct (last_category_decides [electronics] [] []
              {| shop_image := "";
                 shop_items := Some [("item_9", product "Phone" "https://x.com/p/" None None)];
                 shop_title := "" |}
              [("item_9", product "Phone" "https://x.com/p/" None None)]
              (product "Phone" "https://x.com/p/" None None)
              (product "A" "https://X.com/p" None None))
    as (p' & result & Hrun & Hflag & _).
  - reflexivity.
  - apply list_elem_of_singleton. reflexivity.
  - discriminate.
  - vm_compute. reflexivity.
  - intros url label (category & _ & _ & Hc & _). by apply elem_of_nil in Hc.
  - by exists p', result.
Defined.

(** * Further properties of the importer *)

Lemma omap_ext_Forall {A B} (f g : A → option B) (l : list A) :
  Forall (λ x, f x = g x) l → omap f l = omap g l.
Proof.
  induction 1 as [|x l Hx _ IH]; [done|].
  cbn [omap list_omap]. change (list_omap _ _ ?f ?l) with (omap f l).
  by rewrite Hx, IH.
Qed.



Section ImporterMore.

Context {number : Type}.

Implicit Types (w : @World number) (env : Env).

(** What [handleImport] does once its three guards are passed, for the
    store. *)
Lemma handleImport_store_run w env (ps : list ParsedStoreProduct) :
  importDestination (state w) = StoreProducts →
  previewData (state w) = StoreCandidate <$> ps →
  JS.truthy (selectedCategory (state w)) = true
  ∨ JS.truthy (JS.trim (newCategoryName (state w))) = true →
  let chosen :=
    if skipDuplicates (state w)
    then filter (λ p, isDuplicate p ≠ Some true) ps else ps in
  chosen ≠ [] →
  handleImport w env
  = match importToStoreProducts (updState (setUploading true) w) env chosen with
    | (w2, Ok _) =>
        updState (setUploading false)
          (fetchExistingCategories
             (updState resetForm
                (toast (ToastSuccess (importMessage (length ps) (length chosen)))
                       w2)) env)
    | (w2, Throw e) =>
        updState (setUploading false)
          (toast (ToastError ("Failed to import items: " +:+ e)) w2)
    end.
Proof.
  intros Hdest Hpreview Hcat chosen Hchosen.
  pose proof (itemsToImport_store _ _ Hpreview) as Hitems. fold chosen in Hitems.
  unfold handleImport. rewrite Hitems, Hdest, asStoreProducts_fmap.
  rewrite Hpreview, !length_fmap.
  rewrite bool_decide_eq_false_2; last first.
  { intros Hlen. apply Hchosen. unfold chosen.
    destruct ps; [by destruct (skipDuplicates _)|done]. }
  assert (negb (JS.truthy (selectedCategory (state w)))
          && negb (JS.truthy (JS.trim (newCategoryName (state w)))) = false) as ->.
  { destruct Hcat as [-> | ->]; [done|]. by rewrite andb_false_r. }
  rewrite bool_decide_eq_false_2 by (by destruct chosen).
  by destruct (importToStoreProducts _ env chosen) as [w2 [[]|e]].
Qed.

Lemma importToStoreProducts_new w env (products : list ParsedStoreProduct) :
  wellFormed w →
  JS.truthy (JS.trim (newCategoryName (state w))) = true →
  setRejects env = None →
  let category :=
    {| shop_image := "";
       shop_items := Some (addItems cleanProduct env products []);
       shop_title := JS.trim (newCategoryName (state w)) |} in
  importToStoreProducts w env products
  = (withDatabase
       {| ShopCategories := Some (storeCategories w ++ [category]);
          HomeItems := HomeItems (database w) |}
       (withShopHeap (shopHeap w ++ [category]) w),
     Ok ()).
Proof.
  intros Hwf Hnew Hset category. unfold importToStoreProducts.
  rewrite Hnew, Hset. cbn [mbind option_bind].
  set (refs := existingStoreCategories (state w)).
  set (heap := shopHeap w).
  assert (JS.index (refs ++ [length heap])
            (Z.of_nat (length (refs ++ [length heap])) - 1)%Z
          = Some (length heap)) as ->.
  { unfold JS.index. rewrite length_app. simpl.
    rewrite bool_decide_eq_true_2 by lia.
    replace (Z.to_nat (Z.of_nat (length refs + 1) - 1)) with (length refs) by lia.
    by rewrite list_lookup_middle. }
  rewrite list_lookup_middle by done.
  cbn [shop_items shop_image shop_title default from_option id]. fold category.
  assert (<[length heap := category]>
            (heap ++ [{| shop_image := ""; shop_items := Some [];
                         shop_title := JS.trim (newCategoryName (state w)) |}])
          = heap ++ [category]) as ->.
  { rewrite insert_app_r_alt by done. by rewrite Nat.sub_diag. }
  f_equal. f_equal. f_equal. f_equal.
  rewrite omap_app. f_equal.
  - apply omap_ext_Forall. eapply Forall_impl; [exact Hwf|].
    intros r Hr. simpl in *. by apply lookup_app_l.
  - simpl. by rewrite list_lookup_middle.
Qed.


End ImporterMore.

Lemma set_new_append {V} (k : string) (v : V) (o : JS.obj V) :
  JS.get k o = None → JS.set k v o = o ++ [(k, v)].
Proof.
  induction o as [|[k' v'] o IH]; simpl; [done|].
  destruct (decide (k' = k)); [done|]. intros H. by rewrite IH.
Qed.

Lemma get_imap_keys {V} (clean : V → V) (env : Env) (products : list V) (j : nat) :
  length products ≤ j →
  JS.get (itemKey env j) (imap (λ i p, (itemKey env i, clean p)) products) = None.
Proof.
  intros Hj.
  destruct (JS.get _ _) as [v|] eqn:E; [|done]. exfalso.
  assert (∀ (o : JS.obj V) k v, JS.get k o = Some v → (k, v) ∈ o) as Hget.
  { clear. induction o as [|[k' v'] o IH]; intros k v; simpl; [done|].
    destruct (decide (k' = k)) as [->|]; [intros [= ->]; left|right; auto]. }
  apply Hget, elem_of_lookup_imap in E as (i & p & Hk & Hi).
  apply (f_equal fst) in Hk. cbn [fst] in Hk.
  apply itemKey_inj in Hk as ->. apply lookup_lt_Some in Hi. lia.
Qed.

(** Into an empty category the loop writes the products in order, each
    under the key of its index. *)
Lemma addItems_nil {V} (clean : V → V) (env : Env) (products : list V) :
  addItems clean env products []
  = imap (λ i p, (itemKey env i, clean p)) products.
Proof.
  induction products as [|p products IH] using rev_ind; [done|].
  rewrite addItems_snoc, IH, imap_app. simpl. rewrite Nat.add_0_r.
  apply set_new_append. by apply get_imap_keys.
Qed.

Section WrittenCollection.

Context {number : Type}.

Implicit Types (w : @World number) (env : Env).



End WrittenCollection.



Lemma omap_seq_app {A} (heap data : list A) :
  omap (λ r, (heap ++ data) !! r) (seq (length heap) (length data)) = data.
Proof.
  revert heap. induction data as [|x data IH]; intros heap; [done|].
  cbn [length seq omap list_omap].
  change (list_omap _ _ ?f ?l) with (omap f l).
  rewrite list_lookup_middle by done.
  specialize (IH (heap ++ [x])). rewrite length_app in IH. simpl in IH.
  rewrite Nat.add_1_r, <- app_assoc in IH. simpl in IH. by rewrite IH.
Qed.

Section Aftermath.

Context {number : Type}.

Implicit Types (w : @World number) (env : Env).

Lemma importToStoreProducts_state w env (products : list ParsedStoreProduct) :
  state (importToStoreProducts w env products).1 = state w.
Proof.
  unfold importToStoreProducts.
  destruct (JS.truthy _); repeat case_match; done.
Qed.

(** The world after the success branch of [handleImport]: the toast, the
    reset of the form and the categories fetched again. *)
Lemma reload_after_write (w2 : @World number) env (t : Toast)
    (cats : list ShopCategory) :
  importDestination (state w2) = StoreProducts →
  ShopCategories (database w2) = Some cats →
  getRejects env = None →
  let w' := updState (setUploading false)
              (fetchExistingCategories (updState resetForm (toast t w2)) env) in
  state w'
  = setUploading false
      (setExistingStoreCategories (seq (length (shopHeap w2)) (length cats))
         (resetForm (state w2))) ∧
  shopHeap w' = shopHeap w2 ++ cats ∧
  database w' = database w2 ∧
  toasts w' = toasts w2 ++ [t].
Proof.
  intros Hdest Hdb Hget. cbv zeta. unfold fetchExistingCategories.
  rewrite Hget.
  change (importDestination (state (updState resetForm (toast t w2))))
    with (importDestination (state w2)).
  change (database (updState resetForm (toast t w2))) with (database w2).
  by rewrite Hdest, Hdb.
Qed.

(** X9. After a successful import into the store, with the categories
    fetched again, the form is empty, the categories held locally are
    exactly the collection in the store, and a further import without a
    new file is refused with no write. *)
Theorem import_resets_and_reloads w env (ps : list ParsedStoreProduct)
    (idx : nat) (cat0 : ShopCategory) :
  importDestination (state w) = StoreProducts →
  previewData (state w) = StoreCandidate <$> ps →
  wellFormed w →
  importTarget w = Some (idx, cat0) →
  setRejects env = None →
  getRejects env = None →
  let chosen :=
    if skipDuplicates (state w)
    then filter (λ p, isDuplicate p ≠ Some true) ps else ps in
  chosen ≠ [] →
  let w' := handleImport w env in
  ∃ cats,
    ShopCategories (database w') = Some cats ∧
    storeCategories w' = cats ∧
    wellFormed w' ∧
    NoDup (existingStoreCategories (state w')) ∧
    previewData (state w') = [] ∧ parsedData (state w') = [] ∧
    selectedCategory (state w') = "" ∧ newCategoryName (state w') = "" ∧
    duplicateCheckResult (state w') = None ∧ showPreview (state w') = false ∧
    file (state w') = None ∧ uploading (state w') = false ∧
    toasts w'
    = toasts w ++ [ToastSuccess (importMessage (length ps) (length chosen))] ∧
    ∀ env', handleImport w' env' = toast (ToastError "No data to import") w'.
Proof.
  intros Hdest Hpreview Hwf Htarget Hset Hget chosen Hchosen. cbv zeta.
  assert (JS.truthy (selectedCategory (state w)) = true
          ∨ JS.truthy (JS.trim (newCategoryName (state w))) = true) as Hcat.
  { destruct (JS.truthy (JS.trim (newCategoryName (state w)))) eqn:Hnew;
      [by right|left]. by eapply importTarget_selected. }
  rewrite (handleImport_store_run w env ps Hdest Hpreview Hcat Hchosen).
  fold chosen.
  set (w1 := updState (setUploading true) w).
  destruct (importToStoreProducts_written w1 env chosen idx cat0)
    as (w2 & cats & Himport & Hdb & Htoasts & _); [done..|].
  pose proof (importToStoreProducts_state w1 env chosen) as Hstate.
  rewrite Himport in Hstate |- *. cbn [fst] in Hstate.
  destruct (reload_after_write w2 env
              (ToastSuccess (importMessage (length ps) (length chosen))) cats)
    as (Hs & Hh & Hd & Ht); [by rewrite Hstate|done..|].
  cbv zeta in Hs, Hh, Hd, Ht.
  set (w' := updState (setUploading false) _) in *.
  exists cats.
  assert (storeCategories w' = cats) as Hcats.
  { unfold storeCategories. rewrite Hs, Hh.
    cbn [existingStoreCategories setUploading setExistingStoreCategories].
    apply omap_seq_app. }
  split; [by rewrite Hd|]. split; [done|].
  split.
  { unfold wellFormed. rewrite Hs, Hh.
    cbn [existingStoreCategories setUploading setExistingStoreCategories].
    apply Forall_forall. intros r Hr%elem_of_seq. rewrite length_app. lia. }
  split.
  { rewrite Hs. cbn [existingStoreCategories setUploading setExistingStoreCategories].
    apply NoDup_seq. }
  rewrite Hs, Ht, Htoasts. do 8 (split; [done|]). split; [done|].
  intros env'. unfold handleImport. rewrite Hs. done.
Qed.

End Aftermath.

Lemma import_resets_and_reloads_witness :
  ∃ cats,
    ShopCategories (database (handleImport (reviewing fiveRows true "0" "") accepting))
    = Some cats ∧
    storeCategories (handleImport (reviewing fiveRows true "0" "") accepting) = cats ∧
    previewData (state (handleImport (reviewing fiveRows true "0" "") accepting)) = [].
Proof.
  destruct (import_resets_and_reloads (reviewing fiveRows true "0" "") accepting
              fiveRows 0 electronics)
    as (cats & Hdb & Hcats & _ & _ & Hpreview & _).
  - reflexivity.
  - reflexivity.
  - repeat constructor.
  - reflexivity.
  - reflexivity.
  - reflexivity.
  - vm_compute. discriminate.
  - by exists cats.
Defined.

Section ImportThenDetect.

Context {number : Type}.

Implicit Types (w : @World number) (env : Env).

(** The categories held after a successful import under a new name. *)
Lemma handleImport_new_category_categories w env (ps : list ParsedStoreProduct) :
  importDestination (state w) = StoreProducts →
  previewData (state w) = StoreCandidate <$> ps →
  wellFormed w →
  JS.truthy (JS.trim (newCategoryName (state w))) = true →
  setRejects env = None →
  getRejects env = None →
  let chosen :=
    if skipDuplicates (state w)
    then filter (λ p, isDuplicate p ≠ Some true) ps else ps in
  chosen ≠ [] →
  importDestination (state (handleImport w env)) = StoreProducts ∧
  storeCategories (handleImport w env)
  = storeCategories w ++
    [{| shop_image := "";
        shop_items := Some (imap (λ i p, (itemKey env i, cleanProduct p)) chosen);
        shop_title := JS.trim (newCategoryName (state w)) |}].
Proof.
  intros Hdest Hpreview Hwf Hnew Hset Hget chosen Hchosen.
  rewrite (handleImport_store_run w env ps Hdest Hpreview (or_intror Hnew) Hchosen).
  fold chosen.
  rewrite (importToStoreProducts_new (updState (setUploading true) w) env chosen
             Hwf Hnew Hset).
  cbv zeta. rewrite addItems_nil.
  match goal with
  | |- context [fetchExistingCategories (updState resetForm (toast ?t ?w2)) env] =>
      destruct (reload_after_write w2 env t
                  (storeCategories w ++
                   [{| shop_image := "";
                       shop_items :=
                         Some (imap (λ i p, (itemKey env i, cleanProduct p)) chosen);
                       shop_title := JS.trim (newCategoryName (state w)) |}]))
        as (Hs & Hh & _ & _); [done..|]
  end.
  cbv zeta in Hs, Hh.
  set (w' := updState (setUploading false) (fetchExistingCategories _ env)) in *.
  split; [by rewrite Hs|].
  unfold storeCategories at 1. rewrite Hs, Hh.
  cbn [existingStoreCategories setUploading setExistingStoreCategories].
  apply omap_seq_app.
Qed.

(** X10. What was imported under a new category name is recognised the
    next time: after the import, a run of the detector on candidates whose
    links normalise to links of imported candidates that are not empty
    flags every one of them, with the new category as source, and counts
    no new item. *)
Theorem imported_rows_are_duplicates_next_time w env
    (ps qs : list ParsedStoreProduct) :
  importDestination (state w) = StoreProducts →
  previewData (state w) = StoreCandidate <$> ps →
  wellFormed w →
  JS.truthy (JS.trim (newCategoryName (state w))) = true →
  setRejects env = None →
  getRejects env = None →
  let chosen :=
    if skipDuplicates (state w)
    then filter (λ p, isDuplicate p ≠ Some true) ps else ps in
  chosen ≠ [] →
  Forall (λ q, ∃ p, p ∈ chosen ∧ links p ≠ "" ∧
                    normalizeUrl (links q) = normalizeUrl (links p)) qs →
  ∃ w'' result,
    checkForDuplicates (handleImport w env) (StoreCandidate <$> qs)
    = (w'', Ok result) ∧
    duplicates result = Z.of_nat (length qs) ∧
    newProducts result = 0%Z ∧
    length (previewData (state w'')) = length qs ∧
    Forall (λ c, candidateIsDuplicate c = Some true ∧
                 candidateSource c = Some (JS.trim (newCategoryName (state w))))
           (previewData (state w'')).
Proof.
  intros Hdest Hpreview Hwf Hnew Hset Hget chosen Hchosen Hqs.
  destruct (handleImport_new_category_categories w env ps
              Hdest Hpreview Hwf Hnew Hset Hget Hchosen) as [Hdest' Hcats].
  fold chosen in Hcats.
  set (w' := handleImport w env) in *.
  set (label := JS.trim (newCategoryName (state w))) in *.
  set (m := existingUrlsOf StoreProducts (storeCategories w') (websiteCategories w')).
  assert (∀ q, q ∈ qs → m !! normalizeUrl (links q) = Some label) as Hm.
  { intros q Hq. eapply Forall_forall in Hqs as (p & Hp & Hne & Hn); [|exact Hq].
    unfold m. cbn [existingUrlsOf]. rewrite Hcats.
    apply list_elem_of_lookup in Hp as [i Hi].
    apply (existingUrls_store_last (storeCategories w) []
             {| shop_image := "";
                shop_items :=
                  Some (imap (λ i p, (itemKey env i, cleanProduct p)) chosen);
                shop_title := label |}
             (imap (λ i p, (itemKey env i, cleanProduct p)) chosen)
             (cleanProduct p)); [done| |done|done|].
    - unfold JS.values. apply list_elem_of_fmap.
      exists (itemKey env i, cleanProduct p). split; [done|].
      apply elem_of_lookup_imap. by exists i, p.
    - intros url l (category & _ & _ & Hc & _). by apply elem_of_nil in Hc. }
  assert (label ≠ "") as Hlabel by (unfold label; by destruct (JS.trim _)).
  assert (Forall (wellShaped StoreProducts) (StoreCandidate <$> qs)) as Hshape.
  { apply Forall_fmap, Forall_forall. intros q _. by eexists. }
  assert (Forall (λ c, candidateIsDuplicate c = Some true ∧
                       candidateSource c = Some label)
                 (annotate StoreProducts m <$> (StoreCandidate <$> qs))) as Hall.
  { rewrite <- list_fmap_compose. apply Forall_fmap, Forall_forall.
    intros q Hq. unfold compose, annotate. cbn [candidateUrl].
    rewrite (Hm q Hq). cbn [default from_option id].
    destruct label; done. }
  unfold checkForDuplicates. rewrite Hdest'.
  rewrite (detectDuplicates_wellShaped _ _ _ _ Hshape). cbv zeta. fold m.
  eexists _, _. split; [done|].
  cbn [duplicates newProducts previewData state updState setCheckingDuplicates
       setDuplicateCheckResult setPreviewData].
  rewrite (details_count _ _ _ Hshape).
  assert (filter (λ p, candidateIsDuplicate p = Some true)
            (annotate StoreProducts m <$> (StoreCandidate <$> qs))
          = annotate StoreProducts m <$> (StoreCandidate <$> qs)) as ->.
  { clear -Hall. induction Hall as [|c l [Hc _] _ IH]; [done|].
    rewrite filter_cons, decide_True by done. by rewrite IH. }
  rewrite !length_fmap. split; [done|]. split; [lia|]. split; [done|]. exact Hall.
Qed.

End ImportThenDetect.

Lemma imported_rows_are_duplicates_next_time_witness :
  ∃ w'' result,
    checkForDuplicates (handleImport (reviewing fiveRows true "" "Gadgets") accepting)
      (StoreCandidate <$> [product "B again" "HTTPS://B.COM/" None None])
    = (w'', Ok result) ∧
    duplicates result = 1%Z ∧ newProducts result = 0%Z.
Proof.
  destruct (imported_rows_are_duplicates_next_time
              (reviewing fiveRows true "" "Gadgets") accepting fiveRows
              [product "B again" "HTTPS://B.COM/" None None])
    as (w'' & result & Hrun & Hdup & Hnew & _).
  - reflexivity.
  - reflexivity.
  - repeat constructor.
  - reflexivity.
  - reflexivity.
  - reflexivity.
  - vm_compute. discriminate.
  - repeat constructor.
    exists (product "B" "https://b.com" (Some false) None).
    split; [|split; [discriminate|vm_compute; reflexivity]].
    apply list_elem_of_filter. split; [discriminate|].
    right. left.
  - by exists w'', result.
Defined.

Section InvalidSelection.

Context {number : Type}.

Implicit Types (w : @World number) (env : Env).

(** X11. With no new category name and a selection that is not the index
    of a category (not a number, or outside the collection), an import
    into the store stops with the error for an invalid category: nothing
    is written, the categories held locally are untouched and the
    candidates stay. *)
Theorem invalid_store_selection_is_refused w env (ps : list ParsedStoreProduct) :
  importDestination (state w) = StoreProducts →
  previewData (state w) = StoreCandidate <$> ps →
  JS.truthy (selectedCategory (state w)) = true →
  JS.truthy (JS.trim (newCategoryName (state w))) = false →
  JS.parseInt (selectedCategory (state w))
    ≫= JS.index (existingStoreCategories (state w)) = None →
  (if skipDuplicates (state w)
   then filter (λ p, isDuplicate p ≠ Some true) ps else ps) ≠ [] →
  let w' := handleImport w env in
  toasts w'
  = toasts w ++ [ToastError "Failed to import items: Invalid category selection"] ∧
  database w' = database w ∧
  shopHeap w' = shopHeap w ∧
  storeCategories w' = storeCategories w ∧
  previewData (state w') = previewData (state w) ∧
  selectedCategory (state w') = selectedCategory (state w) ∧
  uploading (state w') = false.
Proof.
  intros Hdest Hpreview Hsel Hnew Hindex Hchosen. cbv zeta.
  rewrite (handleImport_store_run w env ps Hdest Hpreview (or_introl Hsel) Hchosen).
  unfold importToStoreProducts.
  change (newCategoryName (state (updState (setUploading true) w)))
    with (newCategoryName (state w)).
  change (selectedCategory (state (updState (setUploading true) w)))
    with (selectedCategory (state w)).
  change (existingStoreCategories (state (updState (setUploading true) w)))
    with (existingStoreCategories (state w)).
  rewrite Hnew, Hindex. done.
Qed.

End InvalidSelection.

Lemma invalid_store_selection_is_refused_witness :
  toasts (handleImport (reviewing fiveRows true "7" "") accepting)
  = [ToastError "Failed to import items: Invalid category selection"] ∧
  database (handleImport (reviewing fiveRows true "7" "") accepting)
  = database (reviewing fiveRows true "7" "").
Proof.
  destruct (invalid_store_selection_is_refused
              (reviewing fiveRows true "7" "") accepting fiveRows)
    as (Ht & Hd & _).
  - reflexivity.
  - reflexivity.
  - reflexivity.
  - reflexivity.
  - reflexivity.
  - vm_compute. discriminate.
  - split; [exact Ht|exact Hd].
Defined.

(** * The preview *)

Lemma filter_delete_other {A} (P : A → Prop) `{!∀ x, Decision (P x)}
    (l : list A) (i : nat) (x : A) :
  l !! i = Some x → ¬ P x → filter P (delete i l) = filter P l.
Proof.
  revert i. induction l as [|y l IH]; intros [|i] Hi Hx; simplify_eq/=.
  - by rewrite filter_cons, decide_False.
  - rewrite !filter_cons. by rewrite (IH i).
Qed.

Lemma filter_delete_length {A} (P : A → Prop) `{!∀ x, Decision (P x)}
    (l : list A) (i : nat) (x : A) :
  l !! i = Some x → P x →
  S (length (filter P (delete i l))) = length (filter P l).
Proof.
  revert i. induction l as [|y l IH]; intros [|i] Hi Hx; simplify_eq/=.
  - by rewrite filter_cons, decide_True.
  - rewrite !filter_cons. destruct (decide (P y)); simpl; by rewrite <- (IH i).
Qed.

Lemma filter_complement_length {A} (f : A → option bool) (l : list A) :
  length (filter (λ p, f p ≠ Some true) l)
  + length (filter (λ p, f p = Some true) l) = length l.
Proof.
  induction l as [|x l IH]; [done|]. rewrite !filter_cons.
  destruct (decide (f x = Some true)) as [Hx|Hx].
  - rewrite decide_False by (by intros []). simpl. lia.
  - rewrite decide_True by done. simpl. lia.
Qed.

Section Preview.

Context {number : Type}.

Implicit Types (w : @World number).

(** [getFilteredPreviewData]: the rows shown. *)
Definition getFilteredPreviewData (s : @State number) : list Candidate :=
  if negb (showDuplicatesOnly s) then previewData s
  else filter (λ item, candidateIsDuplicate item = Some true) (previewData s).

(** X12. Removing a row of the preview takes exactly that row out, lowers
    the total by one and the number of duplicates by one exactly when the
    row was flagged, and keeps the list of duplicate details as it was,
    the detail of a removed row included. *)
Theorem removePreviewItem_counts w (index : nat) (row : Candidate)
    (result : DuplicateCheckResult) :
  previewData (state w) !! index = Some row →
  duplicateCheckResult (state w) = Some result →
  let w' := removePreviewItem w index in
  let flagged l := length (filter (λ p, candidateIsDuplicate p = Some true) l) in
  ∃ result',
    duplicateCheckResult (state w') = Some result' ∧
    previewData (state w')
    = take index (previewData (state w)) ++ drop (S index) (previewData (state w)) ∧
    totalProducts result' = (Z.of_nat (length (previewData (state w))) - 1)%Z ∧
    duplicates result'
    = (Z.of_nat (flagged (previewData (state w)))
       - (if decide (candidateIsDuplicate row = Some true) then 1 else 0))%Z ∧
    newProducts result' = (totalProducts result' - duplicates result')%Z ∧
    duplicateDetails result' = duplicateDetails result.
Proof.
  intros Hrow Hresult. cbv zeta. unfold removePreviewItem. rewrite Hresult.
  eexists. split; [done|].
  cbn [previewData state updState setPreviewData setDuplicateCheckResult
       totalProducts duplicates newProducts duplicateDetails].
  split; [by rewrite delete_take_drop|].
  pose proof (lookup_lt_Some _ _ _ Hrow) as Hlt.
  split; [rewrite length_delete by eauto; lia|].
  split; [|done].
  destruct (decide (candidateIsDuplicate row = Some true)) as [Hflag|Hflag].
  - rewrite <- (filter_delete_length _ _ _ _ Hrow Hflag). lia.
  - rewrite (filter_delete_other _ _ _ _ Hrow Hflag). lia.
Qed.

(** X13. The delete button of the duplicates-only view passes the place
    of the row in the shown list, and [removePreviewItem] removes the row
    at that place of the whole preview: when that row is not flagged, the
    rows shown stay exactly as they were. *)
Theorem remove_in_duplicates_view w (index : nat) (row : Candidate) :
  showDuplicatesOnly (state w) = true →
  previewData (state w) !! index = Some row →
  candidateIsDuplicate row ≠ Some true →
  getFilteredPreviewData (state (removePreviewItem w index))
  = getFilteredPreviewData (state w) ∧
  length (previewData (state (removePreviewItem w index)))
  = length (previewData (state w)) - 1.
Proof.
  intros Hshow Hrow Hflag.
  assert (previewData (state (removePreviewItem w index))
          = delete index (previewData (state w)) ∧
          showDuplicatesOnly (state (removePreviewItem w index)) = true)
    as [Hpreview Hshow'].
  { unfold removePreviewItem. rewrite <- Hshow.
    by destruct (duplicateCheckResult (state w)). }
  unfold getFilteredPreviewData. rewrite Hshow, Hshow', Hpreview. simpl.
  split; [by eapply filter_delete_other|].
  rewrite length_delete by eauto. done.
Qed.

(** X14. The numbers offered with the two import options are the numbers
    of candidates the import takes: after a run of the detector or the
    removal of a row, skipping duplicates imports [newProducts] candidates
    and importing all imports [totalProducts]. *)
Theorem import_options_counts :
  (∀ w (products : list Candidate) w' r,
     checkForDuplicates w products = (w', Ok r) →
     Z.of_nat (length (itemsToImport (setSkipDuplicates true (state w'))))
     = newProducts r ∧
     Z.of_nat (length (itemsToImport (setSkipDuplicates false (state w'))))
     = totalProducts r) ∧
  (∀ w index r,
     duplicateCheckResult (state (removePreviewItem w index)) = Some r →
     Z.of_nat (length (itemsToImport
                         (setSkipDuplicates true (state (removePreviewItem w index)))))
     = newProducts r ∧
     Z.of_nat (length (itemsToImport
                         (setSkipDuplicates false (state (removePreviewItem w index)))))
     = totalProducts r).
Proof.
  split.
  - intros w products w' r. unfold checkForDuplicates.
    destruct (detectDuplicates _ _ _ products) as [[checked result]|e] eqn:D;
      [|done].
    intros [= <- <-].
    pose proof (detectDuplicates_Ok _ _ _ _ _ _ D) as Hshape.
    rewrite (detectDuplicates_wellShaped _ _ _ _ Hshape) in D. cbv zeta in D.
    injection D as <- <-.
    unfold itemsToImport.
    cbn [previewData state updState setCheckingDuplicates setSkipDuplicates
         skipDuplicates setDuplicateCheckResult setPreviewData totalProducts
         newProducts].
    rewrite (details_count _ _ _ Hshape).
    pose proof (filter_complement_length candidateIsDuplicate
                  (annotate (importDestination (state w))
                     (existingUrlsOf (importDestination (state w))
                        (storeCategories w) (websiteCategories w)) <$> products))
      as Hsum.
    rewrite length_fmap in Hsum |- *. split; lia.
  - intros w index r. unfold removePreviewItem.
    destruct (duplicateCheckResult (state w)) as [result|] eqn:E.
    + intros [= <-]. unfold itemsToImport.
      cbn [previewData state updState setSkipDuplicates skipDuplicates
           setDuplicateCheckResult setPreviewData totalProducts newProducts].
      pose proof (filter_complement_length candidateIsDuplicate
                    (delete index (previewData (state w)))) as Hsum.
      split; lia.
    + cbn [duplicateCheckResult state updState setPreviewData]. by rewrite E.
Qed.

End Preview.

Lemma removePreviewItem_counts_witness :
  ∃ result',
    duplicateCheckResult
      (state (removePreviewItem
                (updState (setDuplicateCheckResult
                             (Some {| totalProducts := 5; duplicates := 2;
                                      newProducts := 3; duplicateDetails := [] |}))
                          (reviewing fiveRows true "" "")) 0))
    = Some result' ∧
    totalProducts result' = 4%Z ∧ duplicates result' = 1%Z.
Proof.
  destruct (removePreviewItem_counts
              (updState (setDuplicateCheckResult
                           (Some {| totalProducts := 5; duplicates := 2;
                                    newProducts := 3; duplicateDetails := [] |}))
                        (reviewing fiveRows true "" "")) 0
              (StoreCandidate (product "A" "https://x.com/p" (Some true)
                                 (Some "Electronics")))
              {| totalProducts := 5; duplicates := 2;
                 newProducts := 3; duplicateDetails := [] |})
    as (result' & Hr & _ & Ht & Hd & _).
  - reflexivity.
  - reflexivity.
  - exists result'. split; [exact Hr|]. split; [exact Ht|exact Hd].
Defined.

Lemma remove_in_duplicates_view_witness :
  getFilteredPreviewData
    (state (removePreviewItem
              (updState (setShowDuplicatesOnly true) (reviewing fiveRows true "" "")) 1))
  = getFilteredPreviewData
      (state (updState (setShowDuplicatesOnly true) (reviewing fiveRows true "" ""))).
Proof.
  apply (remove_in_duplicates_view
           (updState (setShowDuplicatesOnly true) (reviewing fiveRows true "" "")) 1
           (StoreCandidate (product "B" "https://b.com" (Some false) None))).
  - reflexivity.
  - reflexivity.
  - discriminate.
Defined.

(** * From the file to the preview *)

(** A file as [handleFileSelect] sees it: its name, its declared type
    and the text [file.text()] resolves to. *)
Record File : Type := {
  fileName : string;
  fileType : string;
  fileText : string
}.

(** [s.endsWith(suffix)] *)
Fixpoint endsWith (s suffix : string) : bool :=
  if decide (s = suffix) then true
  else match s with
       | EmptyString => false
       | String _ rest => endsWith rest suffix
       end.

(** The test of [handleFileSelect] on the type and the lower-cased name. *)
Definition acceptedFile (f : File) : bool :=
  let fileName := JS.toLowerCase (fileName f) in
  bool_decide (fileType f = "text/csv") || endsWith fileName ".csv"
  || bool_decide (fileType f = "application/vnd.ms-excel")
  || bool_decide (fileType f
                  = "application/vnd.openxmlformats-officedocument.spreadsheetml.sheet")
  || endsWith fileName ".xlsx" || endsWith fileName ".xls".

Section FileToPreview.

Context {number : Type}.
Variable zero : number.
Variable toBoolean : number → bool.
Variable parseFloat : string → number.

Implicit Types (w : @World number) (env : Env).

(** [handleFileSelect], given the first file of the input, if any. *)
Definition handleFileSelect w (selectedFile : option File) : World :=
  match selectedFile with
  | None => w
  | Some f =>
      if acceptedFile f then
        parseFile zero toBoolean parseFloat
          (updState (setFile (Some (fileName f))) w) (fileText f)
      else
        updState (setFile None)
          (toast (ToastError "Please select a CSV or Excel file") w)
  end.

(** [removeFile] *)
Definition removeFile (s : @State number) : State :=
  setShowDuplicatesOnly false
    (setDuplicateCheckResult None
       (setShowPreview false
          (setPreviewData [] (setParsedData [] (setFile None s))))).

(** The state [parseFile] leaves for a text that parses. *)
Lemma parseFile_Ok w (text : string) (rows : list ProductData) :
  parseRows text = Ok rows →
  let dest := importDestination (state w) in
  let m := existingUrlsOf dest (storeCategories w) (websiteCategories w) in
  let preview := convertToFormat zero toBoolean parseFloat dest <$> rows in
  let details := omap (detailOf dest m) preview in
  ∃ shown,
    parseFile zero toBoolean parseFloat w text
    = {| state :=
           setUploading false
             (setShowPreview true
                (setCheckingDuplicates false
                   (setDuplicateCheckResult
                      (Some {| totalProducts := Z.of_nat (length preview);
                               duplicates := Z.of_nat (length details);
                               newProducts := (Z.of_nat (length preview)
                                               - Z.of_nat (length details))%Z;
                               duplicateDetails := details |})
                      (setPreviewData (annotate dest m <$> preview)
                         (setParsedData rows (state w))))));
         shopHeap := shopHeap w; homeHeap := homeHeap w;
         database := database w; toasts := toasts w ++ shown |} ∧
    (length details = 0 →
     shown = [ToastSuccess ("Successfully parsed " +:+ pretty (length rows) +:+
                            " items. Found 0 duplicates.")]).
Proof.
  intros Hrows dest m preview details. unfold parseFile. rewrite Hrows.
  assert (Forall (wellShaped dest) preview) as Hshape.
  { apply Forall_fmap, Forall_forall. intros item _.
    apply convertToFormat_wellShaped. }
  unfold checkForDuplicates.
  change (importDestination (state (updState (setParsedData rows) w))) with dest.
  change (storeCategories (updState (setParsedData rows) w)) with (storeCategories w).
  change (websiteCategories (updState (setParsedData rows) w))
    with (websiteCategories w).
  fold preview. rewrite (detectDuplicates_wellShaped _ _ _ _ Hshape). cbv zeta.
  fold m. fold details.
  cbn [duplicates].
  case_bool_decide as Hdup.
  - eexists [_; _]. split.
    + unfold updState, toast. cbn [state shopHeap homeHeap database toasts].
      by rewrite <- app_assoc.
    + intros Hzero. rewrite Hzero in Hdup. done.
  - eexists [_]. split; [done|]. intros ->. done.
Qed.

(** X15. For a text that parses, [parseFile] keeps the rows, shows the
    preview and stores a result whose total is the number of rows; the
    preview has one candidate per row, in order, carrying the link that
    the normaliser read from the row and flagged exactly when the map of
    existing links has a non-empty label for that link. *)
Theorem parseFile_preview_follows_rows w (text : string) (rows : list ProductData) :
  parseRows text = Ok rows →
  let w' := parseFile zero toBoolean parseFloat w text in
  let dest := importDestination (state w) in
  let m := existingUrlsOf dest (storeCategories w) (websiteCategories w) in
  parsedData (state w') = rows ∧
  showPreview (state w') = true ∧
  database w' = database w ∧
  (∃ result, duplicateCheckResult (state w') = Some result ∧
             totalProducts result = Z.of_nat (length rows)) ∧
  Forall2 (λ row c,
             ∃ url,
               candidateUrl dest (convertToFormat zero toBoolean parseFloat dest row)
               = Some url ∧
               candidateUrl dest c = Some url ∧
               candidateIsDuplicate c
               = Some (JS.truthy (default "" (m !! normalizeUrl url))))
          rows (previewData (state w')).
Proof.
  intros Hrows. cbv zeta.
  destruct (parseFile_Ok w text rows Hrows) as (shown & -> & _).
  cbn [state parsedData showPreview database duplicateCheckResult previewData
       setUploading setShowPreview setCheckingDuplicates setDuplicateCheckResult
       setPreviewData setParsedData].
  split; [done|]. split; [done|]. split; [done|].
  split; [eexists; split; [done|]; cbn [totalProducts]; by rewrite length_fmap|].
  rewrite <- list_fmap_compose. apply Forall2_fmap_r, Forall_Forall2_diag.
  apply Forall_forall. intros row _.
  destruct (convertToFormat_wellShaped zero toBoolean parseFloat
              (importDestination (state w)) row) as [url Hurl].
  exists url. split; [done|]. unfold compose.
  split; [by rewrite annotate_url|]. by apply annotate_flag.
Qed.

(** X16. When every data line of a text has another number of values than
    the header, the parse still succeeds with no row: the preview is shown
    empty with a success toast for 0 items, and the import that follows
    is refused for lack of data. *)
Theorem all_lines_dropped w (text header : string) (dataLines : list string) :
  nonEmptyLines text = header :: dataLines →
  dataLines ≠ [] →
  Forall (λ line, length (parseCSVLine line) ≠ length (parseHeaders header))
         dataLines →
  let w' := parseFile zero toBoolean parseFloat w text in
  parsedData (state w') = [] ∧
  previewData (state w') = [] ∧
  showPreview (state w') = true ∧
  toasts w'
  = toasts w ++ [ToastSuccess "Successfully parsed 0 items. Found 0 duplicates."] ∧
  ∀ env, handleImport w' env = toast (ToastError "No data to import") w'.
Proof.
  intros Hlines Hne Hall. cbv zeta.
  assert (parseRows text = Ok []) as Hrows.
  { rewrite (parseRows_Ok _ _ _ Hlines Hne). f_equal.
    assert (filter (λ line, length (parseCSVLine line) = length (parseHeaders header))
                   dataLines = []) as ->; [|done].
    clear Hne Hlines. induction Hall as [|line l Hline _ IH]; [done|].
    by rewrite filter_cons, decide_False. }
  destruct (parseFile_Ok w text [] Hrows) as (shown & -> & Hshown).
  rewrite (Hshown eq_refl).
  cbn [state parsedData showPreview previewData toasts
       setUploading setShowPreview setCheckingDuplicates setDuplicateCheckResult
       setPreviewData setParsedData fmap list_fmap].
  do 4 (split; [done|]). intros env. done.
Qed.

(** X17. A file of an accepted type whose text is too short stays the
    selected file although nothing of it was parsed, whereas a file of
    another type is deselected; in both cases an error is shown and the
    rows, the preview and the store are left as they were. *)
Theorem handleFileSelect_errors w (f : File) :
  (acceptedFile f = false ∨ length (nonEmptyLines (fileText f)) < 2) →
  let w' := handleFileSelect w (Some f) in
  file (state w') = (if acceptedFile f then Some (fileName f) else None) ∧
  (∃ message, toasts w' = toasts w ++ [ToastError message]) ∧
  parsedData (state w') = parsedData (state w) ∧
  previewData (state w') = previewData (state w) ∧
  duplicateCheckResult (state w') = duplicateCheckResult (state w) ∧
  showPreview (state w') = showPreview (state w) ∧
  database w' = database w.
Proof.
  intros H. cbv zeta. unfold handleFileSelect.
  destruct (acceptedFile f) eqn:Haccepted.
  - destruct H as [H|H]; [done|].
    unfold parseFile. rewrite (parseRows_Throw _ H).
    repeat split; eauto.
  - repeat split; eauto.
Qed.

End FileToPreview.

(** * Imports into the website collection *)



Section WebsiteImport.

Context {number : Type}.

Implicit Types (w : @World number) (env : Env).









End WebsiteImport.

(** ** Runs *)

Definition shops : HomeCategory :=
  {| home_image := "";
     home_items :=
       Some [("item_1", {| click := "https://amazon.com"; images := "";
                           name := "Amazon"; isDuplicate_w := None;
                           duplicateSource_w := None |})];
     home_name := "Shops" |}.

Definition twoLinks : list ParsedWebsiteItem :=
  [{| click := "https://AMAZON.com/"; images := ""; name := "Amazon";
      isDuplicate_w := Some true; duplicateSource_w := Some "Shops" |};
   {| click := "https://flipkart.com"; images := ""; name := "Flipkart";
      isDuplicate_w := Some false; duplicateSource_w := None |}].

(** The component on the website destination, holding [shops] under the
    key [shops], with [items] under review. *)
Definition reviewingLinks (items : list ParsedWebsiteItem) (skip : bool)
    (selected newName : string) : @World Z :=
  {| state :=
       setSkipDuplicates skip
         (setNewCategoryName newName
            (setSelectedCategory selected
               (setShowPreview true
                  (setPreviewData (WebsiteCandidate <$> items)
                     (setExistingWebsiteCategories [("shops", 0)]
                        (setImportDestination WebsiteManagement idle))))));
     shopHeap := [];
     homeHeap := [shops];
     database := {| ShopCategories := None; HomeItems := Some [("shops", shops)] |};
     toasts := [] |}.

Example website_skip_writes_one :
  HomeItems (database (handleImport (reviewingLinks twoLinks true "shops" "") accepting))
  = Some [("shops",
           {| home_image := "";
              home_items :=
                Some [("item_1", {| click := "https://amazon.com"; images := "";
                                    name := "Amazon"; isDuplicate_w := None;
                                    duplicateSource_w := None |});
                      ("item_1700000000000_0",
                       {| click := "https://flipkart.com"; images := "";
                          name := "Flipkart"; isDuplicate_w := None;
                          duplicateSource_w := None |})];
              home_name := "Shops" |})].
Proof. vm_compute. reflexivity. Qed.



(** A stand-in for the three operations on numbers, for files without a
    rating column. *)
Definition unrated : string → Z := λ _, 0%Z.
Definition nonZero (z : Z) : bool := negb (z =? 0)%Z.

Lemma parseFile_preview_follows_rows_witness :
  parsedData (state (parseFile 0%Z nonZero unrated (reviewing [] true "" "") sampleText))
  = [<["Name" := "Phone, new"]> (<["ClickUrl" := "https://x.com/p"]> ∅)] ∧
  showPreview (state (parseFile 0%Z nonZero unrated (reviewing [] true "" "") sampleText))
  = true.
Proof.
  destruct (parseFile_preview_follows_rows 0%Z nonZero unrated
              (reviewing [] true "" "") sampleText
              [<["Name" := "Phone, new"]> (<["ClickUrl" := "https://x.com/p"]> ∅)])
    as (Hrows & Hshow & _).
  - vm_compute. reflexivity.
  - split; [exact Hrows|exact Hshow].
Defined.

Definition raggedText : string :=
  "Name,ClickUrl" +:+ String JS.newline ("A" +:+ String JS.newline "B,C,D").

Lemma all_lines_dropped_witness :
  parsedData (state (parseFile 0%Z nonZero unrated (reviewing [] true "" "") raggedText))
  = [] ∧
  toasts (parseFile 0%Z nonZero unrated (reviewing [] true "" "") raggedText)
  = [ToastSuccess "Successfully parsed 0 items. Found 0 duplicates."].
Proof.
  destruct (all_lines_dropped 0%Z nonZero unrated (reviewing [] true "" "")
              raggedText "Name,ClickUrl" ["A"; "B,C,D"])
    as (Hrows & _ & _ & Htoasts & _).
  - vm_compute. reflexivity.
  - discriminate.
  - repeat constructor; vm_compute; discriminate.
  - split; [exact Hrows|exact Htoasts].
Defined.

Lemma handleFileSelect_errors_witness :
  file (state (handleFileSelect 0%Z nonZero unrated (reviewing [] true "" "")
                 (Some {| fileName := "List.CSV"; fileType := "";
                          fileText := "Name,ClickUrl" |})))
  = Some "List.CSV".
Proof.
  destruct (handleFileSelect_errors 0%Z nonZero unrated (reviewing [] true "" "")
              {| fileName := "List.CSV"; fileType := ""; fileText := "Name,ClickUrl" |})
    as (Hfile & _).
  - right. vm_compute. lia.
  - exact Hfile.
Defined.

(** * From the header to the candidate *)

(** The columns [convertToFormat] reads in store mode. *)
Definition knownColumns : list string :=
  ["ImageUrl"; "Image"; "ClickUrl"; "Link"; "Url"; "Ratings"; "Reviews";
   "Currency"; "OriginalPrice"; "Price"; "Rating"; "Name"; "Title"; "ProductName"].

Lemma buildRow_lookup_None (headers values : list string) (h : string) :
  h ∉ headers → buildRow headers values !! h = None.
Proof.
  intros Hh. destruct (buildRow headers values !! h) as [v|] eqn:E; [|done].
  apply buildRow_lookup_Some in E as (j & Hj & _).
  destruct Hh. by eapply list_elem_of_lookup_2.
Qed.

Section HeaderToCandidate.

Context {number : Type}.
Variable zero : number.
Variable toBoolean : number → bool.
Variable parseFloat : string → number.

(** X20. The title of a store candidate is the cell under the header
    [Name], trimmed and without quotes, whenever that cell is not empty:
    of several headers [Name] the last one counts, and nothing else in
    the row matters. *)
Theorem title_from_name_column (headers values : list string) (j : nat)
    (cell : string) :
  headers !! j = Some "Name" →
  (∀ j', j < j' → headers !! j' ≠ Some "Name") →
  values !! j = Some cell →
  JS.trim (JS.removeQuotes cell) ≠ "" →
  ∃ s, convertToFormat zero toBoolean parseFloat StoreProducts
         (buildRow headers values) = StoreCandidate s ∧
       title s = JS.trim (JS.removeQuotes cell).
Proof.
  intros Hj Hlast Hcell Hne. eexists. split; [done|]. cbn [title].
  rewrite (buildRow_lookup_last headers values j "Name" Hj) by done.
  rewrite (cellText_Some _ _ _ Hcell).
  by destruct (JS.trim (JS.removeQuotes cell)).
Qed.

(** X21. Column names are matched exactly: a row built under headers
    none of which is a known column name gives the candidate made of the
    defaults only, whatever its cells hold. *)
Theorem unknown_headers_give_defaults (headers values : list string) :
  (∀ h, h ∈ headers → h ∉ knownColumns) →
  convertToFormat zero toBoolean parseFloat StoreProducts (buildRow headers values)
  = StoreCandidate
      {| image := ""; links := ""; no_of_ratings := ""; pricing := "USD 0";
         ratings := (let r := parseFloat "0" in if toBoolean r then r else zero);
         title := "Untitled Product";
         isDuplicate := None; duplicateSource := None |} ∧
  convertToFormat zero toBoolean parseFloat WebsiteManagement (buildRow headers values)
  = WebsiteCandidate
      {| click := ""; images := ""; name := "Untitled Item";
         isDuplicate_w := None; duplicateSource_w := None |}.
Proof.
  intros Hunknown.
  assert (∀ c, c ∈ knownColumns → buildRow headers values !! c = None) as Hnone.
  { intros c Hc. apply buildRow_lookup_None. intros Hin.
    by apply (Hunknown c Hin). }
  unfold convertToFormat.
  rewrite !Hnone by (unfold knownColumns; set_solver). done.
Qed.

End HeaderToCandidate.

Lemma title_from_name_column_witness :
  ∃ s, convertToFormat 0%Z nonZero unrated StoreProducts
         (buildRow ["Title"; "Name"] ["Old"; " Phone "]) = StoreCandidate s ∧
       title s = "Phone".
Proof.
  destruct (title_from_name_column 0%Z nonZero unrated
              ["Title"; "Name"] ["Old"; " Phone "] 1 " Phone ")
    as (s & Hs & Ht).
  - reflexivity.
  - intros [|[|[|j']]] Hj'; try lia; discriminate.
  - reflexivity.
  - vm_compute. discriminate.
  - exists s. split; [exact Hs|exact Ht].
Defined.

Lemma unknown_headers_give_defaults_witness :
  convertToFormat 0%Z nonZero unrated StoreProducts
    (buildRow ["name"; "url"] ["Phone"; "https://x.com/p"])
  = StoreCandidate (product "Untitled Product" "" None None).
Proof.
  apply (unknown_headers_give_defaults 0%Z nonZero unrated
           ["name"; "url"] ["Phone"; "https://x.com/p"]).
  intros h Hh Hknown. unfold knownColumns in Hknown.
  apply elem_of_cons in Hh as [->|Hh];
    [repeat (apply elem_of_cons in Hknown as [Hk|Hknown]; [discriminate Hk|]);
     by apply elem_of_nil in Hknown|].
  apply elem_of_cons in Hh as [->|Hh];
    [repeat (apply elem_of_cons in Hknown as [Hk|Hknown]; [discriminate Hk|]);
     by apply elem_of_nil in Hknown|].
  by apply elem_of_nil in Hh.
Defined.

(** * Leaving the preview *)

Section Leaving.

Context {number : Type}.
Variable zero : number.
Variable toBoolean : number → bool.
Variable parseFloat : string → number.

Implicit Types (w : @World number) (env : Env).

(** X22. After the form was reset, as every successful import does, the
    rows of the next file cannot be imported until a category is chosen
    again: the import is refused with the request to select one and
    writes nothing.  After the file was merely removed, the next file is
    parsed with the category chosen before still in place. *)
Theorem category_must_be_chosen_again w env (text : string)
    (rows : list ProductData) :
  parseRows text = Ok rows →
  rows ≠ [] →
  let afterReset := parseFile zero toBoolean parseFloat (updState resetForm w) text in
  let afterRemove := parseFile zero toBoolean parseFloat (updState removeFile w) text in
  handleImport afterReset env
  = toast (ToastError
             "Please select an existing category or enter a new category name")
          afterReset ∧
  length (previewData (state afterReset)) = length rows ∧
  selectedCategory (state afterRemove) = selectedCategory (state w) ∧
  newCategoryName (state afterRemove) = newCategoryName (state w) ∧
  length (previewData (state afterRemove)) = length rows.
Proof.
  intros Hrows Hne. cbv zeta.
  destruct (parseFile_Ok zero toBoolean parseFloat (updState resetForm w) text rows
              Hrows) as (shown & -> & _).
  destruct (parseFile_Ok zero toBoolean parseFloat (updState removeFile w) text rows
              Hrows) as (shown' & -> & _).
  cbn [state previewData selectedCategory newCategoryName
       setUploading setShowPreview setCheckingDuplicates setDuplicateCheckResult
       setPreviewData setParsedData].
  rewrite !length_fmap. split; [|done].
  unfold handleImport.
  cbn [state previewData selectedCategory newCategoryName
       setUploading setShowPreview setCheckingDuplicates setDuplicateCheckResult
       setPreviewData setParsedData].
  rewrite !length_fmap.
  rewrite bool_decide_eq_false_2 by (by destruct rows).
  done.
Qed.

End Leaving.

Lemma category_must_be_chosen_again_witness :
  handleImport
    (parseFile 0%Z nonZero unrated
       (updState resetForm (reviewing fiveRows true "0" "")) sampleText) accepting
  = toast (ToastError
             "Please select an existing category or enter a new category name")
          (parseFile 0%Z nonZero unrated
             (updState resetForm (reviewing fiveRows true "0" "")) sampleText).
Proof.
  apply (category_must_be_chosen_again 0%Z nonZero unrated
           (reviewing fiveRows true "0" "") accepting sampleText
           [<["Name" := "Phone, new"]> (<["ClickUrl" := "https://x.com/p"]> ∅)]).
  - vm_compute. reflexivity.
  - discriminate.
Defined.

(** * The images of a video product

    [handleImageFilesSelect] of the videos screen, which shares the
    source file: the files picked for a product, as far as the handler
    looks at them. *)
Record Picked : Type := {
  pickedName : string;
  pickedType : string;
  pickedSize : N
}.

Definition validImageTypes : list string :=
  ["image/jpeg"; "image/png"; "image/webp"].

(** The limit of 5 MB per image. *)
Definition imageSizeLimit : N := (5 * 1024 * 1024)%N.

(** The [forEach] over the files, with its pushes to [validFiles] and its
    toasts, and the cut to ten files that follows: the new value of
    [imageFiles] and the toasts shown. *)
Definition handleImageFilesSelect (files : list Picked) : list Picked * list Toast :=
  let '(validFiles, shown) :=
    foldl (λ '(validFiles, shown) file,
             if bool_decide (pickedType file ∈ validImageTypes) then
               if bool_decide (imageSizeLimit < pickedSize file)%N then
                 (validFiles,
                  shown ++ [ToastError ("Image " +:+ pickedName file +:+
                                        " is too large. Max size is 5MB")])
               else (validFiles ++ [file], shown)
             else
               (validFiles,
                shown ++ [ToastError (pickedName file +:+
                                      " is not a valid image format")]))
          ([], []) files in
  if bool_decide (10 < length validFiles)
  then (take 10 validFiles,
        shown ++ [ToastError "Maximum 10 images allowed per product"])
  else (validFiles, shown).

(** A file the handler keeps. *)
Definition keptImage (file : Picked) : Prop :=
  pickedType file ∈ validImageTypes ∧ (pickedSize file ≤ imageSizeLimit)%N.

Global Instance keptImage_dec (file : Picked) : Decision (keptImage file).
Proof. unfold keptImage. apply _. Defined.

Lemma handleImageFilesSelect_loop (files validFiles : list Picked)
    (shown : list Toast) :
  ∃ shown',
    foldl (λ '(validFiles, shown) file,
             if bool_decide (pickedType file ∈ validImageTypes) then
               if bool_decide (imageSizeLimit < pickedSize file)%N then
                 (validFiles,
                  shown ++ [ToastError ("Image " +:+ pickedName file +:+
                                        " is too large. Max size is 5MB")])
               else (validFiles ++ [file], shown)
             else
               (validFiles,
                shown ++ [ToastError (pickedName file +:+
                                      " is not a valid image format")]))
          (validFiles, shown) files
    = (validFiles ++ filter keptImage files, shown ++ shown') ∧
    length shown' = length files - length (filter keptImage files).
Proof.
  revert validFiles shown.
  induction files as [|file files IH]; intros validFiles shown.
  - exists []. by rewrite !app_nil_r.
  - cbn [foldl]. rewrite filter_cons.
    pose proof (length_filter keptImage files) as Hle.
    case_bool_decide as Htype.
    + case_bool_decide as Hsize.
      * destruct (IH validFiles
                    (shown ++ [ToastError ("Image " +:+ pickedName file +:+
                                           " is too large. Max size is 5MB")]))
          as (shown' & -> & Hlen).
        rewrite decide_False by (intros [_ ?]; lia).
        eexists (_ :: shown'). rewrite <- app_assoc. split; [done|].
        simpl. lia.
      * destruct (IH (validFiles ++ [file]) shown) as (shown' & -> & Hlen).
        rewrite decide_True by (split; [done|lia]).
        exists shown'. rewrite <- app_assoc. split; [done|]. simpl. lia.
    + destruct (IH validFiles
                  (shown ++ [ToastError (pickedName file +:+
                                         " is not a valid image format")]))
        as (shown' & -> & Hlen).
      rewrite decide_False by (by intros [? _]).
      eexists (_ :: shown'). rewrite <- app_assoc. split; [done|].
      simpl. lia.
Qed.

(** X23. Of the files picked as images the handler keeps, in their
    order, the first ten of those that have one of the three image types
    and at most 5 MB: never more than ten, and none of another type or
    larger.  It shows one error for every file it leaves out for type or
    size, and one more when it had to cut to ten. *)
Theorem handleImageFilesSelect_keeps (files : list Picked) :
  (handleImageFilesSelect files).1 = take 10 (filter keptImage files) ∧
  length (handleImageFilesSelect files).1 ≤ 10 ∧
  Forall keptImage (handleImageFilesSelect files).1 ∧
  length (handleImageFilesSelect files).2
  = length files - length (filter keptImage files)
    + (if bool_decide (10 < length (filter keptImage files)) then 1 else 0).
Proof.
  unfold handleImageFilesSelect.
  destruct (handleImageFilesSelect_loop files [] []) as (shown' & -> & Hlen).
  cbn [app].
  assert (Forall keptImage (take 10 (filter keptImage files))) as Hkept.
  { apply Forall_take, Forall_forall. by intros file [? _]%list_elem_of_filter. }
  case_bool_decide as Hmany; cbn [fst snd].
  - split; [done|]. split; [rewrite length_take; lia|]. split; [done|].
    rewrite length_app. simpl. lia.
  - rewrite take_ge by lia. rewrite take_ge in Hkept by lia.
    split; [done|]. split; [lia|]. split; [done|]. lia.
Qed.
